(** * Copilot Spaces bridge: the upstream client, the HTTP bridge and the MCP tools

    A shallow embedding of [src/copilot_client.py], [src/api_bridge.py] and
    [src/mcp_server.py], and the properties of the specification proved (or
    refuted) on it.

    Conventions.
    - A Python [str] is a Rocq [string]; a character is a code point below 256.
    - A decoded JSON value is a [pyval]; a [dict] is an association list in
      insertion order, a JSON number without fraction is a [Z], and a float is
      carried by its [repr] text (Python's [repr] of a float round-trips).
    - A Python exception (an instance of [Exception]) is an [exn]: its class
      name and its message.  A function that may raise returns a [result].
    - [json.loads] belongs to Python's library, not to this repository: it is
      a parameter ([JsonLoads]) with three outcomes: the decoded value,
      [JSONDecodeError], or another exception ([RecursionError] on text nested
      too deeply, [ValueError] on an integer literal beyond the digit limit). *)

From Stdlib Require Import String Ascii List ZArith Bool Arith Lia DecimalString.
From Stdlib Require Import DecimalPos DecimalZ.
Import ListNotations.
Open Scope list_scope.
Open Scope string_scope.
Set Warnings "-register-all".

Set Implicit Arguments.

(* ================================================================== *)
(** ** Python strings *)

Module PyString.

(** [str.isspace] on one character (code points below 256):
    TAB..CR, FS..US, space, NEL and NBSP. *)
Definition isspace (c : ascii) : bool :=
  let n := nat_of_ascii c in
  (((9 <=? n) && (n <=? 13)) || ((28 <=? n) && (n <=? 32))
   || (n =? 133) || (n =? 160))%nat.

Fixpoint lstrip (s : string) : string :=
  match s with
  | EmptyString => EmptyString
  | String c s' => if isspace c then lstrip s' else s
  end.

Fixpoint rstrip (s : string) : string :=
  match s with
  | EmptyString => EmptyString
  | String c s' =>
      match rstrip s' with
      | EmptyString => if isspace c then EmptyString else String c EmptyString
      | r => String c r
      end
  end.

(** [s.strip()] *)
Definition strip (s : string) : string := rstrip (lstrip s).

Fixpoint all_space (s : string) : bool :=
  match s with
  | EmptyString => true
  | String c s' => isspace c && all_space s'
  end.

Definition nonempty (s : string) : bool :=
  match s with EmptyString => false | String _ _ => true end.

(** [s[n:]] *)
Fixpoint drop (n : nat) (s : string) : string :=
  match n, s with
  | O, _ => s
  | S n', String _ s' => drop n' s'
  | S _, EmptyString => EmptyString
  end.

(** [s.partition(sep)] for a non-empty [sep]: the text before the first
    occurrence of [sep] and the text after it, or [None] when [sep] does not
    occur. *)
Fixpoint partition (sep s : string) : option (string * string) :=
  if prefix sep s then Some (EmptyString, drop (String.length sep) s)
  else match s with
       | EmptyString => None
       | String c s' =>
           match partition sep s' with
           | Some (a, b) => Some (String c a, b)
           | None => None
           end
       end.

(** [sub in s] *)
Definition contains (sub s : string) : bool :=
  match partition sub s with Some _ => true | None => false end.

(** [s.split(sep, 1)[-1]] *)
Definition after_first (sep s : string) : string :=
  match partition sep s with Some (_, b) => b | None => s end.

(** [sep.join(parts)] *)
Fixpoint join (sep : string) (parts : list string) : string :=
  match parts with
  | [] => EmptyString
  | [p] => p
  | p :: ps => p ++ sep ++ join sep ps
  end.

Definition LF : string := String (ascii_of_nat 10) EmptyString.

(** [str(n)] of an [int] *)
Definition of_Z (z : Z) : string := NilZero.string_of_int (Z.to_int z).

Definition hex_digit (n : nat) : ascii :=
  if (n <? 10)%nat then ascii_of_nat (48 + n) else ascii_of_nat (87 + n).

(** two lower-case hexadecimal digits of a code point below 256 *)
Definition hex2 (c : ascii) : string :=
  let n := nat_of_ascii c in
  String (hex_digit (n / 16)) (String (hex_digit (n mod 16)) EmptyString).

End PyString.

(* ================================================================== *)
(** ** Python values, exceptions and the [json] serializer *)

Module Py.
Import PyString.

(** The values [json.loads] produces. *)
Inductive pyval : Type :=
| PyNone
| PyBool (b : bool)
| PyInt (z : Z)
| PyFloat (repr : string)
| PyStr (s : string)
| PyList (items : list pyval)
| PyDict (entries : list (string * pyval)).

(** An instance of [Exception]: class name and [str(e)]. *)
Inductive exn : Type := Exn (cls msg : string).

Definition exn_class (e : exn) : string := let '(Exn cls _) := e in cls.

(** [except (c1, ..., cn):] catches [e]; the classes are compared by name
    ([json.loads] raises no subclass of [JSONDecodeError] or [TypeError]). *)
Definition caught_by (classes : list string) (e : exn) : bool :=
  existsb (String.eqb (exn_class e)) classes.

Inductive result (A : Type) : Type :=
| Ok (a : A)
| Raise (e : exn).
Arguments Ok {A} a.
Arguments Raise {A} e.

Definition bind {A B} (r : result A) (k : A -> result B) : result B :=
  match r with Ok a => k a | Raise e => Raise e end.

(** [bool(v)] *)
Definition truthy (v : pyval) : bool :=
  match v with
  | PyNone => false
  | PyBool b => b
  | PyInt z => negb (Z.eqb z 0)
  | PyFloat r => negb (String.eqb r "0.0" || String.eqb r "-0.0")
  | PyStr s => nonempty s
  | PyList l => match l with [] => false | _ :: _ => true end
  | PyDict d => match d with [] => false | _ :: _ => true end
  end.

(** [type(v).__name__] *)
Definition type_name (v : pyval) : string :=
  match v with
  | PyNone => "NoneType"
  | PyBool _ => "bool"
  | PyInt _ => "int"
  | PyFloat _ => "float"
  | PyStr _ => "str"
  | PyList _ => "list"
  | PyDict _ => "dict"
  end.

(** [a or b] *)
Definition py_or (a b : pyval) : pyval := if truthy a then a else b.

(** *** Dictionaries *)

Definition dict := list (string * pyval).

Fixpoint dict_lookup (d : dict) (k : string) : option pyval :=
  match d with
  | [] => None
  | (k', v) :: d' => if String.eqb k k' then Some v else dict_lookup d' k
  end.

(** [d.get(k, default)] *)
Definition dict_get (d : dict) (k : string) (default : pyval) : pyval :=
  match dict_lookup d k with Some v => v | None => default end.

(** [d[k] = v]: an existing key keeps its place, a new key goes last. *)
Fixpoint dict_set (d : dict) (k : string) (v : pyval) : dict :=
  match d with
  | [] => [(k, v)]
  | (k', v') :: d' =>
      if String.eqb k k' then (k', v) :: d' else (k', v') :: dict_set d' k v
  end.

(** *** [repr] and [str] *)

Definition apostrophe : string := "'".
Definition dquote : string := String (ascii_of_nat 34) EmptyString.
Definition backslash : string := String (ascii_of_nat 92) EmptyString.

(** [str.isprintable] on one character (code points below 256). *)
Definition isprintable (c : ascii) : bool :=
  let n := nat_of_ascii c in
  (((32 <=? n) && (n <=? 126)) || ((161 <=? n) && negb (n =? 173)))%nat.

Definition repr_char (quote : ascii) (c : ascii) : string :=
  let n := nat_of_ascii c in
  if (Ascii.eqb c quote || (n =? 92)%nat)%bool then backslash ++ String c EmptyString
  else if (n =? 9)%nat then backslash ++ "t"
  else if (n =? 10)%nat then backslash ++ "n"
  else if (n =? 13)%nat then backslash ++ "r"
  else if isprintable c then String c EmptyString
  else backslash ++ "x" ++ hex2 c.

Fixpoint concat_map (f : ascii -> string) (s : string) : string :=
  match s with
  | EmptyString => EmptyString
  | String c s' => f c ++ concat_map f s'
  end.

(** [repr(s)] of a [str]: single quotes, unless the text has a single quote
    and no double quote. *)
Definition repr_str (s : string) : string :=
  let q := if (contains apostrophe s && negb (contains dquote s))%bool
           then ascii_of_nat 34 else ascii_of_nat 39 in
  String q (concat_map (repr_char q) s ++ String q EmptyString).

Fixpoint py_repr (v : pyval) : string :=
  match v with
  | PyNone => "None"
  | PyBool b => if b then "True" else "False"
  | PyInt z => of_Z z
  | PyFloat r => r
  | PyStr s => repr_str s
  | PyList l => "[" ++ join ", " (map py_repr l) ++ "]"
  | PyDict d =>
      "{" ++ join ", " (map (fun kv => let '(k, x) := kv in
                                       repr_str k ++ ": " ++ py_repr x) d) ++ "}"
  end.

(** [str(v)], which an f-string applies to a replacement field. *)
Definition py_str (v : pyval) : string :=
  match v with
  | PyStr s => s
  | _ => py_repr v
  end.

(** *** [json.dumps] with its defaults ([ensure_ascii], [", "] and [": "]) *)

Definition json_char (c : ascii) : string :=
  let n := nat_of_ascii c in
  if (n =? 34)%nat then backslash ++ dquote
  else if (n =? 92)%nat then backslash ++ backslash
  else if (n =? 10)%nat then backslash ++ "n"
  else if (n =? 13)%nat then backslash ++ "r"
  else if (n =? 9)%nat then backslash ++ "t"
  else if (n =? 8)%nat then backslash ++ "b"
  else if (n =? 12)%nat then backslash ++ "f"
  else if ((32 <=? n) && (n <=? 126))%nat then String c EmptyString
  else backslash ++ "u00" ++ hex2 c.

Definition json_string (s : string) : string :=
  dquote ++ concat_map json_char s ++ dquote.

Definition json_float (r : string) : string :=
  if String.eqb r "nan" then "NaN"
  else if String.eqb r "inf" then "Infinity"
  else if String.eqb r "-inf" then "-Infinity"
  else r.

Fixpoint json_dumps (v : pyval) : string :=
  match v with
  | PyNone => "null"
  | PyBool b => if b then "true" else "false"
  | PyInt z => of_Z z
  | PyFloat r => json_float r
  | PyStr s => json_string s
  | PyList l => "[" ++ join ", " (map json_dumps l) ++ "]"
  | PyDict d =>
      "{" ++ join ", " (map (fun kv => let '(k, x) := kv in
                                       json_string k ++ ": " ++ json_dumps x) d) ++ "}"
  end.

(** [json.dumps(v, indent=2)]: one item per line, two more spaces at each
    level, [","] between items; an empty list or dict stays on one line. *)
Fixpoint spaces (n : nat) : string :=
  match n with
  | O => EmptyString
  | S n' => String " " (spaces n')
  end.

Definition newline_indent (level : nat) : string := LF ++ spaces (2 * level).

Fixpoint json_dumps_indent (level : nat) (v : pyval) : string :=
  match v with
  | PyNone => "null"
  | PyBool b => if b then "true" else "false"
  | PyInt z => of_Z z
  | PyFloat r => json_float r
  | PyStr s => json_string s
  | PyList [] => "[]"
  | PyList l =>
      "[" ++ newline_indent (S level)
      ++ join ("," ++ newline_indent (S level)) (map (json_dumps_indent (S level)) l)
      ++ newline_indent level ++ "]"
  | PyDict [] => "{}"
  | PyDict d =>
      "{" ++ newline_indent (S level)
      ++ join ("," ++ newline_indent (S level))
           (map (fun kv => let '(k, x) := kv in
                           json_string k ++ ": " ++ json_dumps_indent (S level) x) d)
      ++ newline_indent level ++ "}"
  end.

(** *** Operations that raise on the wrong type *)

(** [len(v)] *)
Definition py_len (v : pyval) : result nat :=
  match v with
  | PyStr s => Ok (String.length s)
  | PyList l => Ok (List.length l)
  | PyDict d => Ok (List.length d)
  | _ => Raise (Exn "TypeError" ("object of type '" ++ type_name v ++ "' has no len()"))
  end.

(** [v[0]]; the keys of a decoded JSON object are strings, never [0]. *)
Definition py_first (v : pyval) : result pyval :=
  match v with
  | PyList (x :: _) => Ok x
  | PyList [] => Raise (Exn "IndexError" "list index out of range")
  | PyStr (String c _) => Ok (PyStr (String c EmptyString))
  | PyStr EmptyString => Raise (Exn "IndexError" "string index out of range")
  | PyDict _ => Raise (Exn "KeyError" "0")
  | _ => Raise (Exn "TypeError" ("'" ++ type_name v ++ "' object is not subscriptable"))
  end.

(** [v.get(k, default)] *)
Definition py_get (v : pyval) (k : string) (default : pyval) : result pyval :=
  match v with
  | PyDict d => Ok (dict_get d k default)
  | _ => Raise (Exn "AttributeError" ("'" ++ type_name v ++ "' object has no attribute 'get'"))
  end.

(** [l[-n:]] for [n > 0] *)
Definition last_n {A} (n : nat) (l : list A) : list A :=
  skipn (List.length l - n) l.

(** [{"role": role, "content": content}] *)
Definition turn (role : string) (content : pyval) : pyval :=
  PyDict [("role", PyStr role); ("content", content)].

(** What [json.loads] does with a text: it returns the decoded value, raises
    [JSONDecodeError], or raises another exception; whether an [except]
    clause catches that one is decided by its class ([caught_by]). *)
Inductive loads_outcome : Type :=
| Decoded (v : pyval)
| JSONDecodeError
| LoadsRaises (e : exn).

Class JsonLoads := json_loads : string -> loads_outcome.

End Py.

(* ================================================================== *)
(** ** [src/copilot_client.py] *)

Module CopilotClient.
Import PyString Py.

Definition GITHUB_MCP_URL : string := "https://api.githubcopilot.com/mcp/x/copilot_spaces".
Definition GITHUB_CHAT_URL : string := "https://models.inference.ai.azure.com/chat/completions".
Definition GITHUB_CHAT_MODEL : string := "gpt-4o".

(** *** The objects of the MCP client library, as the code probes them *)

(** An attribute that [hasattr] can tell from one that is there and [None]. *)
Inductive attribute (A : Type) : Type :=
| Absent
| Attr (value : option A).
Arguments Absent {A}.
Arguments Attr {A} value.

(** [getattr(obj, name, None)] *)
Definition getattr {A} (a : attribute A) : option A :=
  match a with Absent => None | Attr v => v end.

Definition hasattr {A} (a : attribute A) : bool :=
  match a with Absent => false | Attr _ => true end.

(** [str(resource.uri)], and [resource.text], which is [None] when the
    attribute is missing (a binary resource) or is [None]. *)
Record resource : Type := Resource {
  res_uri : string;
  res_text : option string }.

(** One item of [result.content]. *)
Record content_item : Type := ContentItem {
  item_type : option string;
  item_resource : attribute resource;
  item_text : option string }.

(** The result of [session.call_tool]; [content] may be [None]. *)
Record call_tool_result : Type := CallToolResult {
  content : option (list content_item) }.

(** One transport and session against the upstream server: what entering,
    initializing, calling a tool and leaving do.  An [__aexit__] receives the
    exception in flight (or none) and leaves the one that goes on (or none). *)
Record mcp_session : Type := McpSession {
  transport_enter : option exn;
  session_enter : option exn;
  initialize : option exn;
  call_tool : string -> dict -> result call_tool_result;
  session_exit : option exn -> option exn;
  transport_exit : option exn -> option exn }.

(** The process environment and the two upstream services. *)
Record world : Type := World {
  getenv : string -> option string;
  streamablehttp_client : string -> list (string * string) -> mcp_session;
  (** POST, [raise_for_status] and [response.json()] of the chat endpoint,
      from the bearer token and the message list *)
  post_chat : string -> list pyval -> result pyval }.

Definition _get_token (w : world) : result string :=
  match getenv w "GITHUB_TOKEN" with
  | Some token =>
      if nonempty token then Ok token
      else Raise (Exn "ValueError"
                    "GITHUB_TOKEN environment variable is not set. Create a GitHub PAT with 'copilot' scope.")
  | None =>
      Raise (Exn "ValueError"
               "GITHUB_TOKEN environment variable is not set. Create a GitHub PAT with 'copilot' scope.")
  end.

Definition _mcp_headers (w : world) : result (list (string * string)) :=
  bind (_get_token w) (fun token => Ok [("Authorization", "Bearer " ++ token)]).

Section Decoding.
Context {loads : JsonLoads}.

(** [try: return json.loads(text) / except (json.JSONDecodeError, TypeError):
    return text]; an exception of [json.loads] of any other class goes on. *)
Definition loads_or_text (text : string) : result pyval :=
  match json_loads text with
  | Decoded v => Ok v
  | JSONDecodeError => Ok (PyStr text)
  | LoadsRaises e =>
      if caught_by ["JSONDecodeError"; "TypeError"] e then Ok (PyStr text) else Raise e
  end.

Definition _parse_mcp_result (result : option call_tool_result) : Py.result pyval :=
  match result with
  | None => Ok PyNone
  | Some r =>
      match content r with
      | None => Ok PyNone
      | Some [] => Ok PyNone
      | Some (content_item :: _) =>
          let content_type := item_type content_item in
          if (match content_type with Some t => String.eqb t "resource" | None => false end
              || hasattr (item_resource content_item))%bool
          then
            match getattr (item_resource content_item) with
            | None => Ok PyNone
            | Some resource =>
                match res_text resource with
                | None => Ok PyNone
                | Some text => loads_or_text text
                end
            end
          else
            match item_text content_item with
            | None => Ok PyNone
            | Some text => loads_or_text text
            end
      end
  end.

End Decoding.

(** *** Scoped sessions *)

(** [async with cm as x: body], where [body] leaves the local variable that
    the handler tests afterwards (of type [S]) together with the exception
    in flight.  When [__aenter__] raises, neither the body nor [__aexit__]
    runs. *)
Definition async_with {S : Type} (enter : option exn) (aexit : option exn -> option exn)
    (initial : S) (body : S * option exn) : S * option exn :=
  match enter with
  | Some e => (initial, Some e)
  | None => let '(s, in_flight) := body in (s, aexit in_flight)
  end.

(** [except Exception as e: if captured: return captured / raise], and the
    [return] after the [try], as in [get_copilot_space]. *)
Definition return_captured (outcome : pyval * option exn) : result pyval :=
  let '(captured, in_flight) := outcome in
  match in_flight with
  | Some e => if truthy captured then Ok captured else Raise e
  | None => Ok captured
  end.

(** *** [list_copilot_spaces] *)

(** The body of the loop over [spaces_result], for one [space]. *)
Definition add_space_ref (space : pyval) : pyval :=
  match space with
  | PyDict d =>
      let owner := py_or (dict_get d "owner_login" PyNone) (dict_get d "owner" (PyStr "")) in
      let owner := match owner with
                   | PyDict o => dict_get o "login" (PyStr "")
                   | _ => owner
                   end in
      let name := dict_get d "name" (PyStr "") in
      PyDict (dict_set d "space_ref"
                (if truthy owner then PyStr (py_str owner ++ "/" ++ py_str name) else name))
  | _ => space
  end.

(** [for space in spaces_result: ...]: the records of a list are updated in
    place; the characters of a string and the keys of a dict are no records;
    anything else cannot be iterated. *)
Definition add_space_refs (spaces_result : pyval) : result pyval :=
  match spaces_result with
  | PyList l => Ok (PyList (map add_space_ref l))
  | PyStr _ | PyDict _ => Ok spaces_result
  | _ => Raise (Exn "TypeError" ("'" ++ type_name spaces_result ++ "' object is not iterable"))
  end.

(** The branch on [isinstance(data, list)] and [isinstance(data, dict)]. *)
Definition select_spaces (data : pyval) : pyval :=
  match data with
  | PyList _ => data
  | PyDict d => dict_get d "spaces" (dict_get d "items" (PyList []))
  | _ => PyList []
  end.

Section Listing.
Context {loads : JsonLoads}.

(** The statements inside the two [async with], with [spaces_result]. *)
Definition list_in_session (s : mcp_session) : pyval * option exn :=
  match initialize s with
  | Some e => (PyList [], Some e)
  | None =>
      match call_tool s "list_copilot_spaces" [] with
      | Raise e => (PyList [], Some e)
      | Ok result =>
          match _parse_mcp_result (Some result) with
          | Raise e => (PyList [], Some e)
          | Ok data =>
              let spaces_result := select_spaces data in
              match add_space_refs spaces_result with
              | Ok normalised => (normalised, None)
              | Raise e => (spaces_result, Some e)
              end
          end
      end
  end.

(** The [try] block. *)
Definition list_try (w : world) : pyval * option exn :=
  match _mcp_headers w with
  | Raise e => (PyList [], Some e)
  | Ok headers =>
      let s := streamablehttp_client w GITHUB_MCP_URL headers in
      async_with (transport_enter s) (transport_exit s) (PyList [])
        (async_with (session_enter s) (session_exit s) (PyList [])
           (list_in_session s))
  end.

(** The handler and the [return] after the [try] of the lister: both put
    [len(spaces_result)] into a log line before they return. *)
Definition return_listed (outcome : pyval * option exn) : result pyval :=
  let '(spaces_result, in_flight) := outcome in
  match in_flight with
  | Some e =>
      if truthy spaces_result
      then bind (py_len spaces_result) (fun _ => Ok spaces_result)
      else Raise e
  | None => bind (py_len spaces_result) (fun _ => Ok spaces_result)
  end.

Definition list_copilot_spaces (w : world) : result pyval :=
  return_listed (list_try w).

End Listing.

(** *** [get_copilot_space] *)

Record file : Type := File { path : string; file_content : string }.

(** The two variables the loop over [result.content] updates. *)
Record walk : Type := Walk { files : list file; space_name : string }.

(** One turn of the loop [for item in (result.content or [])]. *)
Definition walk_item (name : string) (st : walk) (item : content_item) : walk :=
  match getattr (item_resource item) with
  | None => st
  | Some resource =>
      let uri := res_uri resource in
      let text := match res_text resource with Some t => t | None => "" end in
      if contains "/contents/name" uri then
        Walk (files st) (if nonempty (strip text) then strip text else name)
      else if contains "/files/" uri then
        let file_path := after_first "/files/" uri in
        if nonempty (strip text) then Walk (files st ++ [File file_path text]) (space_name st)
        else st
      else st
  end.

Definition walk_content (name : string) (items : list content_item) : walk :=
  fold_left (walk_item name) items (Walk [] name).

Definition context_part (f : file) : string :=
  "### File: " ++ path f ++ LF ++ LF ++ file_content f.

Definition context_separator : string := LF ++ LF ++ "---" ++ LF ++ LF.

Definition build_context (fs : list file) : string :=
  join context_separator (map context_part fs).

Definition file_dict (f : file) : pyval :=
  PyDict [("path", PyStr (path f)); ("content", PyStr (file_content f))].

(** The dict assigned to [space_result]. *)
Definition space_record (owner name space_ref : string) (items : list content_item) : pyval :=
  let st := walk_content name items in
  PyDict [("name", PyStr (space_name st));
          ("owner", PyStr owner);
          ("space_ref", PyStr space_ref);
          ("files", PyList (map file_dict (files st)));
          ("context", PyStr (build_context (files st)))].

(** [owner, name = space_ref.split("/", 1)], or no owner without a slash. *)
Definition split_ref (space_ref : string) : string * string :=
  match partition "/" space_ref with
  | Some (owner, name) => (owner, name)
  | None => ("", space_ref)
  end.

Definition get_in_session (s : mcp_session) (owner name space_ref : string)
    : pyval * option exn :=
  match initialize s with
  | Some e => (PyDict [], Some e)
  | None =>
      match call_tool s "get_copilot_space" [("owner", PyStr owner); ("name", PyStr name)] with
      | Raise e => (PyDict [], Some e)
      | Ok result =>
          let items := match content result with Some l => l | None => [] end in
          (space_record owner name space_ref items, None)
      end
  end.

Definition get_try (w : world) (space_ref : string) : pyval * option exn :=
  let '(owner, name) := split_ref space_ref in
  match _mcp_headers w with
  | Raise e => (PyDict [], Some e)
  | Ok headers =>
      let s := streamablehttp_client w GITHUB_MCP_URL headers in
      async_with (transport_enter s) (transport_exit s) (PyDict [])
        (async_with (session_enter s) (session_exit s) (PyDict [])
           (get_in_session s owner name space_ref))
  end.

Definition get_copilot_space (w : world) (space_ref : string) : result pyval :=
  return_captured (get_try w space_ref).

(** *** [query_copilot_space] *)

(** The token, the POST, and [data.get('model', 'unknown')] of the log line,
    which needs [data] to be a dict. *)
Definition query_copilot_space (w : world) (space_id : string) (messages : list pyval)
    : result dict :=
  bind (_get_token w) (fun token =>
  bind (post_chat w token messages) (fun data =>
  match data with
  | PyDict response => Ok response
  | _ => Raise (Exn "AttributeError" ("'" ++ type_name data ++ "' object has no attribute 'get'"))
  end)).

End CopilotClient.

(* ================================================================== *)
(** ** [src/api_bridge.py] *)

Module ApiBridge.
Import PyString Py CopilotClient.

(** The module-level [_conversations] and [_conv_counter]. *)
Record store : Type := Store {
  _conversations : list (string * list pyval);
  _conv_counter : Z }.

Fixpoint find_conversation (cs : list (string * list pyval)) (conv_id : string)
    : option (list pyval) :=
  match cs with
  | [] => None
  | (k, h) :: cs' => if String.eqb conv_id k then Some h else find_conversation cs' conv_id
  end.

(** [_conversations[conv_id] = history], and every later [history.append]:
    the list in the store is the list the handler holds. *)
Fixpoint set_conversation (cs : list (string * list pyval)) (conv_id : string)
    (history : list pyval) : list (string * list pyval) :=
  match cs with
  | [] => [(conv_id, history)]
  | (k, h) :: cs' =>
      if String.eqb conv_id k then (k, history) :: cs'
      else (k, h) :: set_conversation cs' conv_id history
  end.

Definition _new_conversation_id (st : store) : store * string :=
  let counter := (_conv_counter st + 1)%Z in
  (Store (_conversations st) counter, "conv-" ++ of_Z counter).

(** [models.QueryRequest] *)
Record QueryRequest : Type := Build_QueryRequest {
  prompt : string;
  conversationId : option string;
  context : option string }.

Definition _extract_response (response : dict) : result pyval :=
  let otherwise :=
    match dict_lookup response "message" with
    | Some message => py_get message "content" (PyStr (json_dumps (PyDict response)))
    | None => Ok (PyStr (json_dumps (PyDict response)))
    end in
  match dict_lookup response "choices" with
  | Some choices =>
      bind (py_len choices) (fun n =>
      if (0 <? n)%nat then
        bind (py_first choices) (fun first =>
        bind (py_get first "message" (PyDict [])) (fun message =>
        py_get message "content" (PyStr "")))
      else otherwise)
  | None => otherwise
  end.

Inductive http_response : Type :=
| Http200 (body : pyval)
| Http500 (detail : string).

(** What one request leaves behind: the store, the calls made to the chat
    endpoint (space and message list), and the reply. *)
Record served : Type := Served {
  store_after : store;
  chat_calls : list (string * list pyval);
  reply : http_response }.

Definition system_content (owner name : string) (file_context : pyval) : string :=
  "You are GitHub Copilot operating in the '" ++ name ++ "' space (owner: " ++ owner ++ "). "
  ++ "Answer questions using ONLY the knowledge files below. "
  ++ "If the answer is not in the files, say so honestly." ++ LF ++ LF
  ++ (if truthy file_context
      then "## Space Knowledge Files" ++ LF ++ LF ++ py_str file_context
      else "(No knowledge files are attached to this space yet.)").

(** [space_detail.get("context", "")] inside [try ... except Exception]. *)
Definition fetch_file_context (w : world) (space_ref : string) : pyval :=
  match bind (get_copilot_space w space_ref)
             (fun space_detail => py_get space_detail "context" (PyStr "")) with
  | Ok file_context => file_context
  | Raise _ => PyStr ""
  end.

(** Get or create the conversation: the store, the id and the history. *)
Definition open_conversation (w : world) (st : store) (owner name : string)
    (request : QueryRequest) : store * string * list pyval :=
  let space_ref := owner ++ "/" ++ name in
  let known :=
    match conversationId request with
    | Some conv_id =>
        if nonempty conv_id then
          match find_conversation (_conversations st) conv_id with
          | Some history => Some (conv_id, history)
          | None => None
          end
        else None
    | None => None
    end in
  match known with
  | Some (conv_id, history) => (st, conv_id, history)
  | None =>
      let '(st1, conv_id) := _new_conversation_id st in
      let file_context := fetch_file_context w space_ref in
      let history := [turn "system" (PyStr (system_content owner name file_context))] in
      (Store (set_conversation (_conversations st1) conv_id history) (_conv_counter st1),
       conv_id, history)
  end.

Definition append_turn (st : store) (conv_id : string) (history : list pyval) (t : pyval)
    : store * list pyval :=
  let history' := (history ++ [t])%list in
  (Store (set_conversation (_conversations st) conv_id history') (_conv_counter st), history').

Definition api_query_space (w : world) (st : store) (owner name : string)
    (request : QueryRequest) : served :=
  let space_ref := owner ++ "/" ++ name in
  let '(st1, conv_id, history) := open_conversation w st owner name request in
  let '(st2, history) := append_turn st1 conv_id history (turn "user" (PyStr (prompt request))) in
  let api_messages := last_n 20 history in
  let calls := [(space_ref, api_messages)] in
  match query_copilot_space w space_ref api_messages with
  | Raise (Exn _ msg) => Served st2 calls (Http500 msg)
  | Ok response =>
      match _extract_response response with
      | Raise (Exn _ msg) => Served st2 calls (Http500 msg)
      | Ok assistant_content =>
          let '(st3, _) := append_turn st2 conv_id history (turn "assistant" assistant_content) in
          Served st3 calls
            (Http200 (PyDict [("conversationId", PyStr conv_id);
                              ("response", assistant_content);
                              ("spaceId", PyStr space_ref)]))
      end
  end.

Section Routes.
Context {loads : JsonLoads}.

(** [GET /api/spaces] *)
Definition api_list_spaces (w : world) : http_response :=
  match list_copilot_spaces w with
  | Ok spaces => Http200 spaces
  | Raise (Exn _ msg) => Http500 msg
  end.

End Routes.

(** [GET /api/spaces/{owner}/{name}] *)
Definition api_get_space (w : world) (owner name : string) : http_response :=
  let space_ref := owner ++ "/" ++ name in
  match get_copilot_space w space_ref with
  | Ok space => Http200 space
  | Raise (Exn _ msg) => Http500 msg
  end.

End ApiBridge.

(* ================================================================== *)
(** ** [src/mcp_server.py] *)

Module McpServer.
Import PyString Py CopilotClient.

Definition _extract_response (response : dict) : result pyval :=
  let otherwise :=
    match dict_lookup response "message" with
    | Some message => py_get message "content" (PyStr (json_dumps (PyDict response)))
    | None => Ok (PyStr (json_dumps (PyDict response)))
    end in
  match dict_lookup response "choices" with
  | Some choices =>
      bind (py_len choices) (fun n =>
      if (0 <? n)%nat then
        bind (py_first choices) (fun first =>
        bind (py_get first "message" (PyDict [])) (fun message =>
        py_get message "content" (PyStr "")))
      else otherwise)
  | None => otherwise
  end.

(** [list(history[-20:])]: a list gives its last items, a string its last
    characters; nothing else can be sliced (a dict fails on the slice as a
    key: [TypeError] before Python 3.12, [KeyError] from then on). *)
Definition history_tail (history : pyval) : result (list pyval) :=
  match history with
  | PyList l => Ok (last_n 20 l)
  | PyStr s =>
      Ok (map (fun c => PyStr (String c EmptyString)) (last_n 20 (list_ascii_of_string s)))
  | PyDict _ => Raise (Exn "TypeError" "unhashable type: 'slice'")
  | _ => Raise (Exn "TypeError" ("'" ++ type_name history ++ "' object is not subscriptable"))
  end.

(** What one tool call does: the calls made to the chat endpoint and the
    JSON text returned. *)
Record tool_run : Type := ToolRun {
  tool_chat_calls : list (string * list pyval);
  tool_output : string }.

Definition error_output (e : exn) : string :=
  let '(Exn _ msg) := e in json_dumps (PyDict [("error", PyStr msg)]).

Section Tools.
Context {loads : JsonLoads}.

Definition query_space (w : world) (space_id prompt conversation_history : string)
    : tool_run :=
  let parsed :=
    match json_loads conversation_history with
    | Decoded v => Ok v
    | JSONDecodeError => Ok (PyList [])
    | LoadsRaises e => if caught_by ["JSONDecodeError"] e then Ok (PyList []) else Raise e
    end in
  match bind parsed history_tail with
  | Raise e => ToolRun [] (error_output e)
  | Ok tail =>
      let api_messages := (tail ++ [turn "user" (PyStr prompt)])%list in
      let calls := [(space_id, api_messages)] in
      match bind (query_copilot_space w space_id api_messages) _extract_response with
      | Raise e => ToolRun calls (error_output e)
      | Ok assistant_content =>
          ToolRun calls
            (json_dumps (PyDict [("response", assistant_content);
                                 ("spaceId", PyStr space_id)]))
      end
  end.

End Tools.

Section Listing.
Context {loads : JsonLoads}.

(** The tool [list_spaces]. *)
Definition list_spaces (w : world) : string :=
  match list_copilot_spaces w with
  | Ok spaces => json_dumps_indent 0 spaces
  | Raise e => error_output e
  end.

(** The resource [spaces://list], which has no [try]. *)
Definition spaces_resource (w : world) : result string :=
  bind (list_copilot_spaces w) (fun spaces => Ok (json_dumps_indent 0 spaces)).

End Listing.

End McpServer.

(* ================================================================== *)
(** ** The properties of the specification, as it words them *)

Module Spec.
Import PyString Py CopilotClient.

(** *** Space Fetcher *)

(** The resource-bearing items, in order. *)
Definition resources (items : list content_item) : list resource :=
  flat_map (fun item => match getattr (item_resource item) with
                        | Some r => [r]
                        | None => []
                        end) items.

Definition text_of (r : resource) : string :=
  match res_text r with Some t => t | None => "" end.

Definition names_the_space (r : resource) : bool :=
  contains "/contents/name" (res_uri r).

(** The URI contains the files segment and the trimmed text is non-empty. *)
Definition holds_a_file (r : resource) : bool :=
  contains "/files/" (res_uri r) && nonempty (strip (text_of r)).

Definition file_of (r : resource) : file :=
  File (after_first "/files/" (res_uri r)) (text_of r).

(** One entry per item whose URI contains the files segment and whose text
    has a non-empty trim. *)
Definition spec_files (items : list content_item) : list file :=
  map file_of (filter holds_a_file (resources items)).

(** The same, for the items that do not name the space. *)
Definition kept_files (items : list content_item) : list file :=
  map file_of (filter (fun r => negb (names_the_space r) && holds_a_file r) (resources items)).

Fixpoint last_opt {A} (l : list A) : option A :=
  match l with
  | [] => None
  | x :: l' => match last_opt l' with Some y => Some y | None => Some x end
  end.

(** The trimmed text of the (last) item that names the space, when it is
    non-empty; else the input name. *)
Definition spec_name (name : string) (items : list content_item) : string :=
  match last_opt (filter names_the_space (resources items)) with
  | Some r => if nonempty (strip (text_of r)) then strip (text_of r) else name
  | None => name
  end.

(** [space_ref] can be rebuilt from the record's own [owner] and [name]. *)
Definition space_ref_derivable (space : pyval) : bool :=
  match space with
  | PyDict d =>
      match dict_lookup d "owner", dict_lookup d "name", dict_lookup d "space_ref" with
      | Some (PyStr owner), Some (PyStr name), Some (PyStr space_ref) =>
          String.eqb space_ref (if nonempty owner then owner ++ "/" ++ name else name)
      | _, _, _ => false
      end
  | _ => false
  end.

(** *** Tool-Result Parser *)

Section Parser.
Context {loads : JsonLoads}.

(** The text comes from the nested resource object when there is one, else
    from the item itself. *)
Definition spec_parse (result : option call_tool_result) : pyval :=
  match result with
  | None => PyNone
  | Some r =>
      match content r with
      | None | Some [] => PyNone
      | Some (item :: _) =>
          let text := match getattr (item_resource item) with
                      | Some res => res_text res
                      | None => item_text item
                      end in
          match text with
          | None => PyNone
          | Some t => match json_loads t with Decoded v => v | _ => PyStr t end
          end
      end
  end.

End Parser.

(** The item is tagged as a resource or has a [resource] attribute. *)
Definition resource_tagged (item : content_item) : bool :=
  match item_type item with
  | Some t => String.eqb t "resource" || hasattr (item_resource item)
  | None => hasattr (item_resource item)
  end.

(** A result whose content starts with [item]. *)
Definition first_of (item : content_item) (rest : list content_item) : option call_tool_result :=
  Some (CallToolResult (Some (item :: rest))).

(** The text the parser decodes: the nested resource's for a tagged item,
    else the item's own. *)
Definition decoded_text (item : content_item) : option string :=
  if resource_tagged item then
    match getattr (item_resource item) with
    | Some res => res_text res
    | None => None
    end
  else item_text item.

(** *** Response Extractor *)

(** A field of an object; nothing when the value is no object. *)
Definition field (v : pyval) (k : string) : option pyval :=
  match v with
  | PyDict d => dict_lookup d k
  | _ => None
  end.

Definition serialized (response : dict) : pyval := PyStr (json_dumps (PyDict response)).

(** [choices[0].message.content] with the empty string for an absent level;
    else [message.content], else the serialized response. *)
Definition spec_extract (response : dict) : pyval :=
  match dict_lookup response "choices" with
  | Some (PyList (first :: _)) =>
      match field first "message" with
      | Some message =>
          match field message "content" with
          | Some c => c
          | None => PyStr ""
          end
      | None => PyStr ""
      end
  | _ =>
      match dict_lookup response "message" with
      | Some message =>
          match field message "content" with
          | Some c => c
          | None => serialized response
          end
      | None => serialized response
      end
  end.

Definition is_dict (v : pyval) : bool :=
  match v with PyDict _ => true | _ => false end.


Definition absent_or_dict (o : option pyval) : bool :=
  match o with Some v => is_dict v | None => true end.

(** The shapes of a response the extractor works on: [choices] absent or
    empty with [message] absent or an object, or [choices] a list whose
    first element is an object with [message] absent or an object. *)
Definition supported_shape (response : dict) : bool :=
  match dict_lookup response "choices" with
  | Some (PyList (first :: _)) => is_dict first && absent_or_dict (field first "message")
  | None | Some (PyList []) | Some (PyStr EmptyString) | Some (PyDict []) =>
      absent_or_dict (dict_lookup response "message")
  | Some _ => false
  end.

(** *** Space Lister *)

(** The owner: [owner_login] first, else [owner], else the empty string;
    the [login] field of a nested object. *)
Definition spec_owner (space : dict) : pyval :=
  let picked :=
    match dict_lookup space "owner_login" with
    | Some v => if truthy v then v
                else match dict_lookup space "owner" with Some o => o | None => PyStr "" end
    | None => match dict_lookup space "owner" with Some o => o | None => PyStr "" end
    end in
  match picked with
  | PyDict o => match dict_lookup o "login" with Some l => l | None => PyStr "" end
  | _ => picked
  end.

Definition spec_space_ref (space : dict) : pyval :=
  let owner := spec_owner space in
  let name := match dict_lookup space "name" with Some n => n | None => PyStr "" end in
  if truthy owner then PyStr (py_str owner ++ "/" ++ py_str name) else name.

(** *** Sessions *)

(** The token is set and [s] is the session the client opens with it; the
    transport and the session are entered and initialized without error. *)
Definition session_ready (w : world) (s : mcp_session) : Prop :=
  exists token,
    getenv w "GITHUB_TOKEN" = Some token
    /\ nonempty token = true
    /\ s = streamablehttp_client w GITHUB_MCP_URL [("Authorization", "Bearer " ++ token)]
    /\ transport_enter s = None
    /\ session_enter s = None
    /\ initialize s = None.

(** The exception that leaves the two [async with] blocks when [in_flight]
    leaves their body. *)
Definition teardown (s : mcp_session) (in_flight : option exn) : option exn :=
  transport_exit s (session_exit s in_flight).

(** The arguments of the [get_copilot_space] tool call for a reference. *)
Definition get_arguments (space_ref : string) : dict :=
  [("owner", PyStr (fst (split_ref space_ref))); ("name", PyStr (snd (split_ref space_ref)))].

(** The fetcher reached the tool and the tool answered [r]. *)
Definition tool_answered (w : world) (space_ref : string) (r : call_tool_result) : Prop :=
  exists headers,
    _mcp_headers w = Ok headers
    /\ call_tool (streamablehttp_client w GITHUB_MCP_URL headers) "get_copilot_space"
         (get_arguments space_ref) = Ok r.

(** [result.content or []] *)
Definition items_of (r : call_tool_result) : list content_item :=
  match content r with Some l => l | None => [] end.

(** *** Conversation Store *)

Definition role_of (t : pyval) : option pyval := field t "role".

Definition is_system (t : pyval) : bool :=
  match role_of t with
  | Some (PyStr r) => String.eqb r "system"
  | _ => false
  end.

Definition system_turns (history : list pyval) : nat :=
  List.length (filter is_system history).

(** The request names no conversation, or one the store does not know. *)
Definition starts_conversation (st : ApiBridge.store) (request : ApiBridge.QueryRequest) : Prop :=
  match ApiBridge.conversationId request with
  | None => True
  | Some conv_id => ApiBridge.find_conversation (ApiBridge._conversations st) conv_id = None
  end.

(** The id the next new conversation gets. *)
Definition next_id (st : ApiBridge.store) : string :=
  "conv-" ++ of_Z (ApiBridge._conv_counter st + 1).

(** The system text of a space whose files could not be fetched. *)
Definition placeholder_content (owner name : string) : string :=
  "You are GitHub Copilot operating in the '" ++ name ++ "' space (owner: " ++ owner ++ "). "
  ++ "Answer questions using ONLY the knowledge files below. "
  ++ "If the answer is not in the files, say so honestly." ++ LF ++ LF
  ++ "(No knowledge files are attached to this space yet.)".

End Spec.

(* ================================================================== *)
(** ** Sample upstreams *)

Module Samples.
Import PyString Py CopilotClient.

(** [json.loads] on the serializations of the given values; any other text
    is taken as malformed. *)
Definition loads_of (known : list pyval) : JsonLoads := fun text =>
  match find (fun v => String.eqb (json_dumps v) text) known with
  | Some v => Decoded v
  | None => JSONDecodeError
  end.

Definition sample_spaces : pyval :=
  PyList [PyDict [("owner_login", PyStr "a"); ("name", PyStr "b")];
          PyDict [("owner", PyDict [("login", PyStr "c")]); ("name", PyStr "d")];
          PyDict [("name", PyStr "e")]].

Definition sample_loads : JsonLoads := loads_of [sample_spaces; PyList []].

Definition resource_item (uri text : string) : content_item :=
  ContentItem (Some "resource") (Attr (Some (Resource uri (Some text)))) None.

Definition text_item (text : string) : content_item :=
  ContentItem (Some "text") Absent (Some text).

(** A resource item without text (a binary resource). *)
Definition blob_item (uri : string) : content_item :=
  ContentItem (Some "resource") (Attr (Some (Resource uri None))) None.

(** A session that opens, answers the two tools with [listed] and
    [fetched], and whose transport raises [late] (when given) on the way
    out, in place of whatever was in flight. *)
Definition session (listed fetched : result call_tool_result) (late : option exn)
    : mcp_session :=
  McpSession None None None
    (fun tool _ => if String.eqb tool "list_copilot_spaces" then listed else fetched)
    (fun in_flight => in_flight)
    (fun in_flight => match late with Some e => Some e | None => in_flight end).

Definition chat_reply (text : string) : pyval :=
  PyDict [("choices", PyList [PyDict [("message", PyDict [("content", PyStr text)])]])].

(** A world with a token, the session above and a chat endpoint that always
    answers [reply]. *)
Definition sample_world (listed fetched : result call_tool_result) (late : option exn)
    (reply : result pyval) : world :=
  World (fun _ => Some "ghp_token") (fun _ _ => session listed fetched late) (fun _ _ => reply).

Definition cleanup_error : exn := Exn "ExceptionGroup" "unhandled errors in a TaskGroup".
Definition tool_error : exn := Exn "McpError" "tool call failed".

Definition spaces_answer : call_tool_result :=
  CallToolResult (Some [resource_item "spaces://list" (json_dumps sample_spaces)]).

Definition no_spaces_answer : call_tool_result :=
  CallToolResult (Some [resource_item "spaces://list" "[]"]).

(** The items of the scenario of the specification. *)
Definition space_items : list content_item :=
  [resource_item "space://x/1/contents/name" "My Space";
   resource_item "space://x/1/files/a.md" "hello";
   resource_item "space://x/1/files/empty.md" "   "].

(** A space without a name item. *)
Definition unnamed_items : list content_item :=
  [resource_item "space://acme/7/files/overview.md" "X is Y."].

(** A space with a file stored at the path [contents/name]. *)
Definition shadowing_items : list content_item :=
  [resource_item "space://acme/7/files/contents/name" "hello"].

(** The teardown raises after both tools have answered. *)
Definition late_cleanup_world : world :=
  sample_world (Ok spaces_answer) (Ok (CallToolResult (Some space_items)))
    (Some cleanup_error) (Ok (chat_reply "hi")).

(** The teardown raises after an empty listing. *)
Definition empty_listing_world : world :=
  sample_world (Ok no_spaces_answer) (Ok (CallToolResult (Some space_items)))
    (Some cleanup_error) (Ok (chat_reply "hi")).

(** The tool calls fail and the teardown raises on top; the chat works. *)
Definition failing_world : world :=
  sample_world (Raise tool_error) (Raise tool_error) (Some cleanup_error) (Ok (chat_reply "hi")).

Definition unnamed_world : world :=
  sample_world (Ok spaces_answer) (Ok (CallToolResult (Some unnamed_items)))
    None (Ok (chat_reply "hi")).

Definition shadowing_world : world :=
  sample_world (Ok spaces_answer) (Ok (CallToolResult (Some shadowing_items)))
    None (Ok (chat_reply "hi")).

(** An item tagged as a resource that has no [resource] attribute, and an
    item whose [resource] attribute is [None]; both carry a text. *)
Definition tagged_without_resource : content_item :=
  ContentItem (Some "resource") Absent (Some "hello").

Definition null_resource : content_item :=
  ContentItem (Some "text") (Attr None) (Some "hello").

(** Responses of the chat endpoint. *)
Definition reply_hi : dict :=
  [("choices", PyList [PyDict [("message", PyDict [("content", PyStr "hi")])]])].

Definition reply_yo : dict := [("message", PyDict [("content", PyStr "yo")])].

Definition reply_foo : dict := [("foo", PyStr "bar")].


Definition reply_choices_number : dict := [("choices", PyInt 5)].

Definition reply_null_choices : dict :=
  [("choices", PyNone); ("message", PyDict [("content", PyStr "yo")])].

Definition first_request : ApiBridge.QueryRequest :=
  ApiBridge.Build_QueryRequest "What is X?" None None.

Definition empty_store : ApiBridge.store := ApiBridge.Store [] 0.

End Samples.

(* ================================================================== *)
(** ** Invariants of the conversation store, and further samples *)

Module Invariants.
Import PyString Py CopilotClient ApiBridge Spec.

(** A history as the bridge builds it: a system turn, then turns that are
    no system turns. *)
Definition grounded (history : list pyval) : Prop :=
  exists text rest,
    history = turn "system" (PyStr text) :: rest /\ system_turns rest = 0.

(** An id the counter has already given out. *)
Definition issued (counter : Z) (conv_id : string) : Prop :=
  exists k, (0 < k <= counter)%Z /\ conv_id = "conv-" ++ of_Z k.

(** The counter is not negative, and every stored conversation has an issued
    id and a grounded history. *)
Definition store_ok (st : store) : Prop :=
  (0 <= _conv_counter st)%Z
  /\ forall conv_id history,
       In (conv_id, history) (_conversations st) ->
       issued (_conv_counter st) conv_id /\ grounded history.

(** The token is not set, or set to the empty string. *)
Definition token_missing (w : world) : Prop :=
  getenv w "GITHUB_TOKEN" = None \/ getenv w "GITHUB_TOKEN" = Some "".

Definition token_error : exn :=
  Exn "ValueError"
    "GITHUB_TOKEN environment variable is not set. Create a GitHub PAT with 'copilot' scope.".


(** What [history[-20:]] accepts without raising. *)
Definition sliceable (v : pyval) : bool :=
  match v with
  | PyStr _ | PyList _ => true
  | _ => false
  end.

Fixpoint has_slash (s : string) : bool :=
  match s with
  | EmptyString => false
  | String c s' => Ascii.eqb c "/" || has_slash s'
  end.

(** The [content] of a stored file entry. *)
Definition file_entry_ok (items : list content_item) (entry : pyval) : Prop :=
  exists r,
    In r (resources items)
    /\ entry = PyDict [("path", PyStr (after_first "/files/" (res_uri r)));
                       ("content", PyStr (text_of r))]
    /\ contains "/files/" (res_uri r) = true
    /\ all_space (text_of r) = false.

End Invariants.

Module MoreSamples.
Import PyString Py CopilotClient Samples.

(** No token in the environment; the upstreams would answer. *)
Definition tokenless_world : world :=
  World (fun _ => None) (fun _ _ => session (Ok spaces_answer)
                                      (Ok (CallToolResult (Some space_items))) None)
    (fun _ _ => Ok (chat_reply "hi")).

(** The chat endpoint answers 200 with a JSON array. *)
Definition array_reply_world : world :=
  sample_world (Ok spaces_answer) (Ok (CallToolResult (Some unnamed_items))) None
    (Ok (PyList [PyStr "hi"])).

(** The chat endpoint fails. *)
Definition chat_down_world : world :=
  sample_world (Ok spaces_answer) (Ok (CallToolResult (Some unnamed_items))) None
    (Raise (Exn "HTTPStatusError" "Server error '502 Bad Gateway'")).

(** A space whose only file is blank. *)
Definition blank_world : world :=
  sample_world (Ok spaces_answer)
    (Ok (CallToolResult (Some [resource_item "space://acme/7/files/todo.md" "  "]))) None
    (Ok (chat_reply "hi")).

(** A conversation of twenty turns, and the store that holds it. *)
Definition long_history : list pyval :=
  turn "system" (PyStr "grounding") :: repeat (turn "user" (PyStr "again")) 19.

Definition long_store : ApiBridge.store := ApiBridge.Store [("conv-1", long_history)] 1.

Definition follow_up (conv_id text : string) : ApiBridge.QueryRequest :=
  ApiBridge.Build_QueryRequest text (Some conv_id) None.

(** Listings in an envelope, and one whose [spaces] field is a number. *)
Definition wrapped_spaces : pyval := PyDict [("spaces", sample_spaces)].
Definition items_spaces : pyval := PyDict [("items", sample_spaces)].
Definition numeric_spaces : pyval := PyDict [("spaces", PyInt 5)].

Definition sample_history : pyval :=
  PyList [turn "user" (PyStr "one"); turn "assistant" (PyStr "two")].

Definition more_loads : JsonLoads :=
  loads_of [sample_spaces; wrapped_spaces; items_spaces; numeric_spaces; sample_history;
            PyInt 7; PyNone; PyDict [("spaces", PyNone)]].

(** A hundred thousand opening brackets and nothing else: no valid JSON,
    and nested deeper than [json.loads] can follow. *)
Fixpoint brackets (n : nat) : string :=
  match n with
  | O => EmptyString
  | S n' => String "[" (brackets n')
  end.

Definition deep_text : string := brackets (100 * 1000).

Definition recursion_error : exn :=
  Exn "RecursionError"
    "maximum recursion depth exceeded while decoding a JSON array from a unicode string".

(** [more_loads], with [RecursionError] for the deep text. *)
Definition deep_loads : JsonLoads := fun text =>
  if String.eqb text deep_text then LoadsRaises recursion_error else more_loads text.

Definition answer_of (v : pyval) : call_tool_result :=
  CallToolResult (Some [resource_item "spaces://list" (json_dumps v)]).

Definition listing_world (v : pyval) (late : option exn) : world :=
  sample_world (Ok (answer_of v)) (Ok (CallToolResult (Some space_items))) late
    (Ok (chat_reply "hi")).

End MoreSamples.

(* ================================================================== *)
(** ** Facts about the string operations *)

Section StringFacts.
Import PyString.

Lemma prefix_split (p s : string) :
  prefix p s = true -> s = p ++ drop (String.length p) s.
Proof.
  revert s; induction p as [|c p IH]; intros s H.
  - reflexivity.
  - destruct s as [|c' s]; simpl in H; [discriminate|].
    destruct (ascii_dec c c') as [->|]; [|discriminate].
    simpl. f_equal. now apply IH.
Qed.

Lemma prefix_append (p b : string) : prefix p (p ++ b) = true.
Proof.
  induction p as [|c p IH]; simpl.
  - now destruct b.
  - destruct (ascii_dec c c); [assumption | congruence].
Qed.

Lemma partition_unfold (sep s : string) :
  partition sep s =
  if prefix sep s then Some (EmptyString, drop (String.length sep) s)
  else match s with
       | EmptyString => None
       | String c s' =>
           match partition sep s' with
           | Some (a, b) => Some (String c a, b)
           | None => None
           end
       end.
Proof. destruct s; reflexivity. Qed.

(** What [partition] returns rebuilds the string around the separator. *)
Lemma partition_sound (sep s a b : string) :
  partition sep s = Some (a, b) -> s = a ++ sep ++ b.
Proof.
  revert a b; induction s as [|c s IH]; intros a b H; rewrite partition_unfold in H.
  - destruct (prefix sep EmptyString) eqn:P; [|discriminate].
    inversion H; subst. now apply prefix_split.
  - destruct (prefix sep (String c s)) eqn:P.
    + inversion H; subst. now apply prefix_split.
    + destruct (partition sep s) as [[a0 b0]|] eqn:E; [|discriminate].
      inversion H; subst. simpl. f_equal. now apply IH.
Qed.

(** ... and it is the first occurrence it splits at. *)
Lemma partition_first (sep s a b : string) :
  partition sep s = Some (a, b) ->
  forall a' b', s = a' ++ sep ++ b' -> String.length a <= String.length a'.
Proof.
  revert a b; induction s as [|c s IH]; intros a b H a' b' E; rewrite partition_unfold in H.
  - destruct (prefix sep EmptyString); [|discriminate].
    inversion H; subst. simpl; lia.
  - destruct (prefix sep (String c s)) eqn:P.
    + inversion H; subst. simpl; lia.
    + destruct (partition sep s) as [[a0 b0]|] eqn:E0; [|discriminate].
      inversion H; subst a b.
      destruct a' as [|c' a'].
      * simpl in E. rewrite E, prefix_append in P. discriminate.
      * simpl in E. inversion E; subst c'. simpl.
        apply le_n_S. eapply IH; [reflexivity | eassumption].
Qed.

Lemma partition_complete (sep a b : string) :
  exists a0 b0, partition sep (a ++ sep ++ b) = Some (a0, b0).
Proof.
  induction a as [|c a IH]; rewrite partition_unfold.
  - simpl. rewrite prefix_append. eauto.
  - destruct (prefix sep (String c a ++ sep ++ b)); [eauto|].
    simpl. destruct IH as (a0 & b0 & ->). eauto.
Qed.

(** [sub in s] holds exactly when [s] has [sub] inside. *)
Lemma contains_iff (sub s : string) :
  contains sub s = true <-> exists a b, s = a ++ sub ++ b.
Proof.
  unfold contains; split.
  - destruct (partition sub s) as [[a b]|] eqn:E; [|discriminate].
    intros _. exists a, b. now apply partition_sound.
  - intros (a & b & ->).
    destruct (partition_complete sub a b) as (a0 & b0 & ->). reflexivity.
Qed.

(** [s.split(sep, 1)[-1]] is what follows the first occurrence of [sep]. *)
Lemma after_first_spec (sep s : string) :
  contains sep s = true ->
  exists a, s = a ++ sep ++ after_first sep s
            /\ forall a' b', s = a' ++ sep ++ b' -> String.length a <= String.length a'.
Proof.
  unfold contains, after_first.
  destruct (partition sep s) as [[a b]|] eqn:E; [|discriminate].
  intros _. exists a. split.
  - now apply partition_sound.
  - now apply partition_first with (b := b).
Qed.

Lemma lstrip_all_space (s : string) : all_space (lstrip s) = all_space s.
Proof.
  induction s as [|c s IH]; simpl; [reflexivity|].
  destruct (isspace c) eqn:C; simpl; [assumption | now rewrite C].
Qed.

Lemma rstrip_nonempty (s : string) : nonempty (rstrip s) = negb (all_space s).
Proof.
  induction s as [|c s IH]; simpl; [reflexivity|].
  destruct (rstrip s) eqn:R; simpl in *.
  - destruct (isspace c), (all_space s); simpl in *; congruence.
  - destruct (all_space s); simpl in *; [discriminate|].
    now rewrite andb_false_r.
Qed.

(** The trimmed text is empty exactly when the text is blank. *)
Lemma strip_nonempty (s : string) : nonempty (strip s) = negb (all_space s).
Proof. unfold strip. now rewrite rstrip_nonempty, lstrip_all_space. Qed.

End StringFacts.

(* ================================================================== *)
(** ** Scoped sessions and the late-cleanup rule *)

Section Sessions.
Import PyString Py CopilotClient Spec.
Context {loads : JsonLoads}.

Lemma list_try_ready (w : world) (s : mcp_session) :
  session_ready w s ->
  list_try w = (fst (list_in_session s), teardown s (snd (list_in_session s))).
Proof.
  intros (token & Htok & Hne & Hs & He1 & He2 & _).
  unfold list_try, _mcp_headers, _get_token, teardown.
  rewrite Htok, Hne. cbn [bind]. rewrite <- Hs.
  unfold async_with. rewrite He1, He2.
  now destruct (list_in_session s).
Qed.

Lemma get_try_ready (w : world) (s : mcp_session) (space_ref : string) :
  session_ready w s ->
  let body := get_in_session s (fst (split_ref space_ref)) (snd (split_ref space_ref)) space_ref in
  get_try w space_ref = (fst body, teardown s (snd body)).
Proof.
  intros (token & Htok & Hne & Hs & He1 & He2 & _).
  unfold get_try, _mcp_headers, _get_token, teardown.
  destruct (split_ref space_ref) as [owner name]; cbn [fst snd].
  rewrite Htok, Hne. cbn [bind]. rewrite <- Hs.
  unfold async_with. rewrite He1, He2.
  now destruct (get_in_session s owner name space_ref).
Qed.

(** Once the tool has answered, the fetcher returns the assembled record,
    whatever the two [__aexit__] do afterwards. *)
Lemma get_copilot_space_returns (w : world) (s : mcp_session) (space_ref : string)
    (r : call_tool_result) :
  session_ready w s ->
  call_tool s "get_copilot_space" (get_arguments space_ref) = Ok r ->
  get_copilot_space w space_ref =
  Ok (space_record (fst (split_ref space_ref)) (snd (split_ref space_ref)) space_ref
        (match content r with Some l => l | None => [] end)).
Proof.
  intros Hready Hcall.
  unfold get_copilot_space. rewrite (get_try_ready space_ref Hready).
  destruct Hready as (_ & _ & _ & _ & _ & _ & Hinit).
  unfold get_in_session, get_arguments in *. rewrite Hinit, Hcall. cbn [fst snd].
  unfold return_captured.
  now destruct (teardown s None).
Qed.

Lemma get_copilot_space_fails (w : world) (s : mcp_session) (space_ref : string)
    (e0 e : exn) :
  session_ready w s ->
  call_tool s "get_copilot_space" (get_arguments space_ref) = Raise e0 ->
  teardown s (Some e0) = Some e ->
  get_copilot_space w space_ref = Raise e.
Proof.
  intros Hready Hcall Hdown.
  unfold get_copilot_space. rewrite (get_try_ready space_ref Hready).
  destruct Hready as (_ & _ & _ & _ & _ & _ & Hinit).
  unfold get_in_session, get_arguments in *. rewrite Hinit, Hcall. cbn [fst snd].
  now rewrite Hdown.
Qed.

(** The lister after a tool answer that decodes to the list [l]: the
    normalised list is what [spaces_result] holds when the blocks are left. *)
Lemma list_in_session_list (s : mcp_session) (r : call_tool_result) (data : pyval)
    (l : list pyval) :
  initialize s = None ->
  call_tool s "list_copilot_spaces" [] = Ok r ->
  _parse_mcp_result (Some r) = Ok data ->
  select_spaces data = PyList l ->
  list_in_session s = (PyList (map add_space_ref l), None).
Proof.
  intros Hinit Hcall Hparse Hsel. unfold list_in_session.
  now rewrite Hinit, Hcall, Hparse, Hsel.
Qed.

Lemma return_listed_list (l : list pyval) (in_flight : option exn) :
  return_listed (PyList l, in_flight) =
  match in_flight with
  | Some e => if truthy (PyList l) then Ok (PyList l) else Raise e
  | None => Ok (PyList l)
  end.
Proof. unfold return_listed. cbn [py_len bind]. reflexivity. Qed.

Lemma truthy_map_list (f : pyval -> pyval) (l : list pyval) :
  truthy (PyList (map f l)) = truthy (PyList l).
Proof. now destruct l. Qed.

(** C1. Both operations keep what they hold when the teardown raises late:
    when the session or transport teardown raises [e] after the lister has
    decoded a populated list, or after the fetcher has assembled its record,
    the operation returns that data; when the list is still empty, or the
    tool call itself had failed, the exception that leaves the teardown
    reaches the caller. *)
Theorem cleanup_exception_tolerance (w : world) (s : mcp_session) (e : exn) :
  session_ready w s ->
  (forall r data l,
      call_tool s "list_copilot_spaces" [] = Ok r ->
      _parse_mcp_result (Some r) = Ok data ->
      select_spaces data = PyList l ->
      teardown s None = Some e ->
      list_copilot_spaces w =
      if truthy (PyList l) then Ok (PyList (map add_space_ref l)) else Raise e)
  /\ (forall e0,
         call_tool s "list_copilot_spaces" [] = Raise e0 ->
         teardown s (Some e0) = Some e ->
         list_copilot_spaces w = Raise e)
  /\ (forall space_ref r,
         call_tool s "get_copilot_space" (get_arguments space_ref) = Ok r ->
         teardown s None = Some e ->
         get_copilot_space w space_ref =
         Ok (space_record (fst (split_ref space_ref)) (snd (split_ref space_ref)) space_ref
               (match content r with Some l => l | None => [] end)))
  /\ (forall space_ref e0,
         call_tool s "get_copilot_space" (get_arguments space_ref) = Raise e0 ->
         teardown s (Some e0) = Some e ->
         get_copilot_space w space_ref = Raise e).
Proof.
  intros Hready.
  pose proof Hready as (_ & _ & _ & _ & _ & _ & Hinit).
  repeat split.
  - intros r data l Hcall Hparse Hsel Hdown.
    unfold list_copilot_spaces. rewrite (list_try_ready Hready).
    rewrite (list_in_session_list _ Hinit Hcall Hparse Hsel). cbn [fst snd].
    rewrite return_listed_list, Hdown, truthy_map_list. reflexivity.
  - intros e0 Hcall Hdown.
    unfold list_copilot_spaces. rewrite (list_try_ready Hready).
    unfold list_in_session. rewrite Hinit, Hcall. cbn [fst snd].
    unfold return_listed. now rewrite Hdown.
  - intros space_ref r Hcall _. now apply get_copilot_space_returns with (s := s).
  - intros space_ref e0 Hcall Hdown. now apply get_copilot_space_fails with (s := s) (e0 := e0).
Qed.

End Sessions.

(* ================================================================== *)
(** ** The Space Fetcher *)

Section Fetcher.
Import PyString Py CopilotClient Spec.

Lemma resources_cons (item : content_item) (items : list content_item) :
  resources (item :: items) =
  match getattr (item_resource item) with
  | Some r => r :: resources items
  | None => resources items
  end.
Proof. unfold resources; simpl. now destruct (getattr (item_resource item)). Qed.

(** The loop, from any state: the files found are appended in item order,
    and the last item that names the space decides the name. *)
Lemma walk_fold (name : string) (items : list content_item) (st : walk) :
  fold_left (walk_item name) items st =
  Walk (files st ++ kept_files items)
       (match last_opt (filter names_the_space (resources items)) with
        | Some r => if nonempty (strip (text_of r)) then strip (text_of r) else name
        | None => space_name st
        end).
Proof.
  revert st; induction items as [|item items IH]; intros st.
  - unfold kept_files; simpl. rewrite app_nil_r. now destruct st.
  - cbn [fold_left]. rewrite IH. clear IH.
    unfold kept_files, walk_item. rewrite resources_cons.
    destruct (getattr (item_resource item)) as [r|]; [|reflexivity].
    cbn [filter]. unfold names_the_space, holds_a_file, text_of.
    destruct (contains "/contents/name" (res_uri r)) eqn:N; cbn [negb andb files space_name].
    + f_equal. cbn [last_opt].
      destruct (last_opt _); reflexivity.
    + destruct (contains "/files/" (res_uri r)) eqn:F; cbn [andb]; [|reflexivity].
      destruct (nonempty (strip match res_text r with Some t => t | None => "" end)) eqn:T;
        [|reflexivity].
      cbn [files space_name map]. rewrite <- app_assoc. reflexivity.
Qed.

Lemma walk_content_spec (name : string) (items : list content_item) :
  walk_content name items = Walk (kept_files items) (spec_name name items).
Proof. unfold walk_content. rewrite walk_fold. reflexivity. Qed.

(** What [get_copilot_space] holds in [space_result] when the [try] block is
    left: still the empty dict, or the record of the returned items. *)
Lemma get_try_captured (w : world) (space_ref : string) :
  fst (get_try w space_ref) = PyDict []
  \/ exists items,
       fst (get_try w space_ref) =
       space_record (fst (split_ref space_ref)) (snd (split_ref space_ref)) space_ref items.
Proof.
  unfold get_try. destruct (split_ref space_ref) as [owner name]; cbn [fst snd].
  destruct (_mcp_headers w) as [headers|e]; [|now left].
  set (s := streamablehttp_client w GITHUB_MCP_URL headers).
  unfold async_with.
  destruct (transport_enter s); [now left|].
  destruct (session_enter s); [now left|].
  unfold get_in_session.
  destruct (initialize s); [now left|].
  destruct (call_tool s "get_copilot_space" _) as [r|e]; [|now left].
  right. eexists. reflexivity.
Qed.

Lemma get_copilot_space_record (w : world) (space_ref : string) (space : pyval) :
  get_copilot_space w space_ref = Ok space ->
  truthy space = true ->
  exists items,
    space = space_record (fst (split_ref space_ref)) (snd (split_ref space_ref)) space_ref items.
Proof.
  unfold get_copilot_space, return_captured. intros H T.
  destruct (get_try_captured w space_ref) as [E|(items & E)];
    destruct (get_try w space_ref) as [captured [e|]]; cbn [fst] in E; subst captured.
  - cbn in H. discriminate.
  - inversion H; subst. discriminate.
  - exists items. cbn in H. now inversion H.
  - exists items. now inversion H.
Qed.

Lemma split_ref_slash (space_ref : string) :
  contains "/" space_ref = true ->
  space_ref = fst (split_ref space_ref) ++ "/" ++ snd (split_ref space_ref).
Proof.
  unfold contains, split_ref.
  destruct (partition "/" space_ref) as [[owner name]|] eqn:E; [|discriminate].
  intros _. now apply partition_sound.
Qed.

Lemma split_ref_bare (space_ref : string) :
  contains "/" space_ref = false ->
  split_ref space_ref = ("", space_ref).
Proof.
  unfold contains, split_ref.
  destruct (partition "/" space_ref) as [[owner name]|]; [discriminate | reflexivity].
Qed.

(** What the fetcher returns after a tool answer: the name is the trimmed
    text of the last item whose URI contains [/contents/name] when that text
    is non-empty (else the input name); the files are, in item order, one
    entry per item whose URI contains [/files/] but not [/contents/name] and
    whose text has a non-empty trim, the path being what follows the first
    [/files/] and the content the text as it is; the context joins, with the
    separator, a header line with the path followed by the content of each
    file, and is empty for no file. *)
Lemma space_fetcher_record (w : world) (s : mcp_session) (space_ref : string)
    (r : call_tool_result) :
  session_ready w s ->
  call_tool s "get_copilot_space" (get_arguments space_ref) = Ok r ->
  let items := match content r with Some l => l | None => [] end in
  exists space,
    get_copilot_space w space_ref = Ok (PyDict space)
    /\ dict_lookup space "name" =
       Some (PyStr (spec_name (snd (split_ref space_ref)) items))
    /\ dict_lookup space "files" = Some (PyList (map file_dict (kept_files items)))
    /\ dict_lookup space "context" =
       Some (PyStr (join context_separator
                      (map (fun f => "### File: " ++ path f ++ LF ++ LF ++ file_content f)
                           (kept_files items))))
    /\ (kept_files items = [] -> dict_lookup space "context" = Some (PyStr "")).
Proof.
  intros Hready Hcall items.
  eexists. split.
  - rewrite (get_copilot_space_returns space_ref Hready Hcall). reflexivity.
  - fold items. rewrite walk_content_spec. cbn [files space_name].
    repeat split.
    intros E. cbn. unfold build_context. rewrite E. reflexivity.
Qed.

Lemma append_inv_head (a b c : string) : a ++ b = a ++ c -> b = c.
Proof. induction a as [|x a IH]; simpl; [trivial | intros [= H]; now apply IH]. Qed.

(** The record a successful fetch returns is the one built from the answer
    of the tool. *)
Lemma get_copilot_space_answered (w : world) (space_ref : string) (space : pyval) :
  get_copilot_space w space_ref = Ok space ->
  truthy space = true ->
  exists r,
    tool_answered w space_ref r
    /\ space = space_record (fst (split_ref space_ref)) (snd (split_ref space_ref)) space_ref
                (items_of r).
Proof.
  unfold get_copilot_space, get_try, tool_answered, get_arguments.
  destruct (split_ref space_ref) as [owner name]; cbn [fst snd].
  destruct (_mcp_headers w) as [headers|e0].
  - set (s := streamablehttp_client w GITHUB_MCP_URL headers).
    unfold async_with, get_in_session.
    destruct (transport_enter s); [cbn; discriminate|].
    destruct (session_enter s).
    + destruct (transport_exit s (Some e)); cbn; [discriminate|].
      intros [= <-]. discriminate.
    + destruct (initialize s).
      * destruct (transport_exit s (session_exit s (Some e))); cbn; [discriminate|].
        intros [= <-]. discriminate.
      * destruct (call_tool s "get_copilot_space" _) as [r|e] eqn:Hcall.
        -- intros H _. exists r. split; [exists headers; now split|].
           unfold return_captured in H.
           destruct (transport_exit s (session_exit s None)); cbn in H; now inversion H.
        -- destruct (transport_exit s (session_exit s (Some e))); cbn; [discriminate|].
           intros [= <-]. discriminate.
  - cbn. discriminate.
Qed.

(** C6 (amended). In every record the fetcher returns, [space_ref] is the
    reference it was called with and [owner] the part before its first slash:
    [space_ref] is [owner], a slash and the requested name when the reference
    has a slash, and the requested name, with an empty owner, when it has
    none.  The record's [name] is the requested name unless the last item
    naming the space in the tool's answer has a non-blank text, which then is
    the name.  [space_ref] is rebuilt from the record's own owner and name
    exactly when the record's name is the requested name, and, for a
    reference that starts with a slash (an empty owner), exactly when the
    record's name is the whole reference. *)
Theorem space_ref_is_the_reference (w : world) (space_ref : string) (space : pyval) :
  get_copilot_space w space_ref = Ok space ->
  truthy space = true ->
  let owner := fst (split_ref space_ref) in
  let requested := snd (split_ref space_ref) in
  exists r display,
    tool_answered w space_ref r
    /\ display = spec_name requested (items_of r)
    /\ field space "owner" = Some (PyStr owner)
    /\ field space "space_ref" = Some (PyStr space_ref)
    /\ field space "name" = Some (PyStr display)
    /\ (contains "/" space_ref = true -> space_ref = owner ++ "/" ++ requested)
    /\ (contains "/" space_ref = false -> owner = "" /\ space_ref = requested)
    /\ (nonempty owner = true \/ contains "/" space_ref = false ->
        (space_ref_derivable space = true <-> display = requested))
    /\ (nonempty owner = false -> contains "/" space_ref = true ->
        (space_ref_derivable space = true <-> display = space_ref)).
Proof.
  intros H T owner requested.
  destruct (get_copilot_space_answered _ _ H T) as (r & Hanswered & ->).
  exists r, (spec_name requested (items_of r)).
  unfold space_record. rewrite walk_content_spec. cbn [files space_name].
  fold owner requested.
  split; [exact Hanswered|]. do 4 (split; [reflexivity|]).
  split; [apply split_ref_slash|].
  assert (Hbare : contains "/" space_ref = false -> owner = "" /\ space_ref = requested).
  { intros C. unfold owner, requested. now rewrite (split_ref_bare _ C). }
  split; [exact Hbare|].
  set (display := spec_name requested (items_of r)).
  assert (Hd : space_ref_derivable
                 (PyDict [("name", PyStr display); ("owner", PyStr owner);
                          ("space_ref", PyStr space_ref);
                          ("files", PyList (map file_dict (kept_files (items_of r))));
                          ("context", PyStr (build_context (kept_files (items_of r))))])
               = String.eqb space_ref (if nonempty owner then owner ++ "/" ++ display
                                       else display)) by reflexivity.
  split.
  - intros Hcase. rewrite Hd. rewrite String.eqb_eq.
    destruct (contains "/" space_ref) eqn:C.
    + destruct Hcase as [Ho|]; [|discriminate]. rewrite Ho.
      rewrite (split_ref_slash _ C) at 1. fold owner requested. split.
      * intros E. apply append_inv_head in E. apply append_inv_head in E. now symmetry.
      * now intros ->.
    + destruct (Hbare eq_refl) as [Eo Er]. rewrite Eo. cbn [nonempty]. rewrite Er.
      split; intros E; now symmetry.
  - intros Ho C. rewrite Hd, Ho. rewrite String.eqb_eq. split; intros E; now symmetry.
Qed.

End Fetcher.

(* ================================================================== *)
(** ** The Tool-Result Parser and the Space Lister *)

Section ParserAndLister.
Import PyString Py CopilotClient Spec.
Context {loads : JsonLoads}.

Lemma parse_first_item (item : content_item) (rest : list content_item) :
  _parse_mcp_result (first_of item rest) =
  match decoded_text item with
  | Some t => loads_or_text t
  | None => Ok PyNone
  end.
Proof.
  unfold _parse_mcp_result, first_of, decoded_text, resource_tagged; cbn [content].
  destruct item as [[t|] [|[[uri [text|]]|]] [own|]]; cbn;
    try destruct (String.eqb t "resource"); reflexivity.
Qed.

(** C3 (amended). The parser returns absent for an absent result and for
    an absent or empty content sequence; otherwise only the first item
    counts.  When that item is tagged as a resource or has a [resource]
    attribute, the text is that of the nested resource object, absent when
    the object is missing; otherwise it is the item's own text.  An absent
    text gives absent, a text that [json.loads] decodes gives the decoded
    value, and a text on which [json.loads] raises [JSONDecodeError] (or
    [TypeError]) is returned unchanged; an exception of [json.loads] of any
    other class is raised by the parser. *)
Theorem parse_mcp_result_cases :
  _parse_mcp_result None = Ok PyNone
  /\ _parse_mcp_result (Some (CallToolResult None)) = Ok PyNone
  /\ _parse_mcp_result (Some (CallToolResult (Some []))) = Ok PyNone
  /\ (forall item rest,
         _parse_mcp_result (first_of item rest) = _parse_mcp_result (first_of item []))
  /\ (forall item rest,
         decoded_text item = None -> _parse_mcp_result (first_of item rest) = Ok PyNone)
  /\ (forall item rest t v,
         decoded_text item = Some t -> json_loads t = Decoded v ->
         _parse_mcp_result (first_of item rest) = Ok v)
  /\ (forall item rest t,
         decoded_text item = Some t -> json_loads t = JSONDecodeError ->
         _parse_mcp_result (first_of item rest) = Ok (PyStr t))
  /\ (forall item rest t e,
         decoded_text item = Some t -> json_loads t = LoadsRaises e ->
         _parse_mcp_result (first_of item rest)
         = if caught_by ["JSONDecodeError"; "TypeError"] e then Ok (PyStr t) else Raise e).
Proof.
  do 3 (split; [reflexivity|]).
  split; [|split; [|split; [|split]]].
  - intros item rest. now rewrite !parse_first_item.
  - intros item rest E. now rewrite parse_first_item, E.
  - intros item rest t v E L. rewrite parse_first_item, E. unfold loads_or_text. now rewrite L.
  - intros item rest t E L. rewrite parse_first_item, E. unfold loads_or_text. now rewrite L.
  - intros item rest t e E L. rewrite parse_first_item, E. unfold loads_or_text. now rewrite L.
Qed.

Lemma dict_lookup_set_same (d : dict) (k : string) (v : pyval) :
  dict_lookup (dict_set d k v) k = Some v.
Proof.
  induction d as [|[k' v'] d IH]; simpl.
  - now rewrite String.eqb_refl.
  - destruct (String.eqb k k') eqn:E; simpl; rewrite E; [reflexivity | assumption].
Qed.

Lemma dict_lookup_set_other (d : dict) (k k0 : string) (v : pyval) :
  k0 <> k -> dict_lookup (dict_set d k v) k0 = dict_lookup d k0.
Proof.
  intros N. induction d as [|[k' v'] d IH]; simpl.
  - destruct (String.eqb k0 k) eqn:E; [|reflexivity].
    apply String.eqb_eq in E. contradiction.
  - destruct (String.eqb k k') eqn:E; simpl.
    + apply String.eqb_eq in E; subst k'.
      destruct (String.eqb k0 k) eqn:E0; [|reflexivity].
      apply String.eqb_eq in E0. contradiction.
    + now rewrite IH.
Qed.

(** The loop body computes the reference the specification words. *)
Lemma add_space_ref_dict (space : dict) :
  add_space_ref (PyDict space) = PyDict (dict_set space "space_ref" (spec_space_ref space)).
Proof.
  unfold add_space_ref, spec_space_ref, spec_owner, py_or, dict_get.
  destruct (dict_lookup space "owner_login") as [login|]; cbn [truthy].
  - destruct (truthy login); [destruct login; reflexivity|].
    destruct (dict_lookup space "owner") as [[]|]; reflexivity.
  - destruct (dict_lookup space "owner") as [[]|]; reflexivity.
Qed.

(** For text fields: a non-empty owner gives [owner/name], an empty or
    missing one gives the name. *)
Lemma spec_space_ref_text (space : dict) (name : string) :
  dict_lookup space "name" = Some (PyStr name) ->
  (forall login, dict_lookup space "owner_login" = Some (PyStr login) ->
                 nonempty login = true ->
                 spec_space_ref space = PyStr (login ++ "/" ++ name))
  /\ (forall owner, dict_lookup space "owner_login" = None ->
                    dict_lookup space "owner" = Some (PyStr owner) ->
                    nonempty owner = true ->
                    spec_space_ref space = PyStr (owner ++ "/" ++ name))
  /\ (forall nested login, dict_lookup space "owner_login" = None ->
                           dict_lookup space "owner" = Some (PyDict nested) ->
                           dict_lookup nested "login" = Some (PyStr login) ->
                           nonempty login = true ->
                           spec_space_ref space = PyStr (login ++ "/" ++ name))
  /\ (dict_lookup space "owner_login" = None ->
      dict_lookup space "owner" = None ->
      spec_space_ref space = PyStr name).
Proof.
  intros Hname. unfold spec_space_ref, spec_owner. rewrite Hname.
  split; [|split; [|split]].
  - intros login -> N. cbn [truthy]. rewrite N. cbn [truthy]. rewrite N. reflexivity.
  - intros owner -> -> N. cbn [truthy]. rewrite N. reflexivity.
  - intros nested login -> -> -> N. cbn [truthy]. rewrite N. reflexivity.
  - intros -> ->. reflexivity.
Qed.

Lemma nth_error_add_space_ref (l : list pyval) (i : nat) (space : dict) :
  nth_error l i = Some (PyDict space) ->
  nth_error (map add_space_ref l) i =
  Some (PyDict (dict_set space "space_ref" (spec_space_ref space))).
Proof.
  intros H. rewrite nth_error_map, H. cbn [option_map]. now rewrite add_space_ref_dict.
Qed.

(** C7. When the decoded result is the list [l] (and the teardown is clean
    or the list populated), the lister returns a list of the same length in
    which every keyed record of [l] has, at its place, the field [space_ref]
    added: the owner, a slash and the name when the owner is non-empty, the
    name alone otherwise, the owner being [owner_login] when it is set, else
    [owner] (its [login] when it is a nested object), else the empty string.
    The other fields of the record are unchanged. *)
Theorem lister_adds_space_ref (w : world) (s : mcp_session) (r : call_tool_result)
    (data : pyval) (l : list pyval) :
  session_ready w s ->
  call_tool s "list_copilot_spaces" [] = Ok r ->
  _parse_mcp_result (Some r) = Ok data ->
  select_spaces data = PyList l ->
  teardown s None = None \/ l <> [] ->
  exists out,
    list_copilot_spaces w = Ok (PyList out)
    /\ List.length out = List.length l
    /\ forall i space,
         nth_error l i = Some (PyDict space) ->
         exists space',
           nth_error out i = Some (PyDict space')
           /\ dict_lookup space' "space_ref" = Some (spec_space_ref space)
           /\ forall k, k <> "space_ref" -> dict_lookup space' k = dict_lookup space k.
Proof.
  intros Hready Hcall Hparse Hsel Hcase.
  pose proof Hready as (_ & _ & _ & _ & _ & _ & Hinit).
  exists (map add_space_ref l). split; [|split].
  - unfold list_copilot_spaces. rewrite (list_try_ready Hready).
    rewrite (list_in_session_list _ Hinit Hcall Hparse Hsel). cbn [fst snd].
    rewrite return_listed_list.
    destruct (teardown s None) as [e|]; [|reflexivity].
    destruct Hcase as [|Hl]; [discriminate|].
    destruct l; [contradiction | reflexivity].
  - apply length_map.
  - intros i space Hi. exists (dict_set space "space_ref" (spec_space_ref space)).
    split; [exact (nth_error_add_space_ref _ _ Hi)|].
    split; [apply dict_lookup_set_same|].
    intros k Hk. now apply dict_lookup_set_other.
Qed.

End ParserAndLister.

(* ================================================================== *)
(** ** The Response Extractor *)

Section Extractor.
Import PyString Py CopilotClient Spec.

(** The two front ends carry the same extractor. *)
Lemma extract_response_same (response : dict) :
  McpServer._extract_response response = ApiBridge._extract_response response.
Proof. reflexivity. Qed.

(** On a supported shape the extractor returns what the specification
    words. *)
Lemma extract_supported (response : dict) :
  supported_shape response = true ->
  ApiBridge._extract_response response = Ok (spec_extract response).
Proof.
  unfold supported_shape, ApiBridge._extract_response, spec_extract, serialized.
  destruct (dict_lookup response "choices") as [choices|].
  - destruct choices as [| | | |s|l|d]; try discriminate.
    + destruct s; [|discriminate]. cbn.
      destruct (dict_lookup response "message") as [[]|]; cbn; try discriminate; reflexivity.
    + destruct l as [|first l]; cbn.
      * destruct (dict_lookup response "message") as [[]|]; cbn; try discriminate; reflexivity.
      * destruct first as [| | | | | |fields]; cbn; try discriminate.
        unfold dict_get.
        destruct (dict_lookup fields "message") as [[]|]; cbn; try discriminate;
          intros _; reflexivity.
    + destruct d; [|discriminate]. cbn.
      destruct (dict_lookup response "message") as [[]|]; cbn; try discriminate; reflexivity.
  - destruct (dict_lookup response "message") as [[]|]; cbn; try discriminate; reflexivity.
Qed.

(** On any other response it raises. *)
Lemma extract_unsupported (response : dict) :
  supported_shape response = false ->
  exists e, ApiBridge._extract_response response = Raise e.
Proof.
  unfold supported_shape, ApiBridge._extract_response.
  destruct (dict_lookup response "choices") as [choices|].
  - destruct choices as [| | | |s|l|d]; cbn; eauto.
    + destruct s; cbn; [|eauto].
      destruct (dict_lookup response "message") as [[]|]; cbn; try discriminate; eauto.
    + destruct l as [|first l]; cbn.
      * destruct (dict_lookup response "message") as [[]|]; cbn; try discriminate; eauto.
      * destruct first as [| | | | | |fields]; cbn; eauto.
        unfold dict_get.
        destruct (dict_lookup fields "message") as [[]|]; cbn; try discriminate; eauto.
    + destruct d; cbn; [|eauto].
      destruct (dict_lookup response "message") as [[]|]; cbn; try discriminate; eauto.
  - destruct (dict_lookup response "message") as [[]|]; cbn; try discriminate; eauto.
Qed.


(** C5 (amended). On a response of a supported shape, both extractors
    return [choices[0].message.content] when [choices] is a non-empty list
    (the empty string when [message] or [content] is absent), else
    [message.content] when there is a [message] (the serialized response when
    [content] is absent), else the serialized response; on any other response
    they raise. *)
Theorem extract_response_cases (response : dict) :
  (supported_shape response = true ->
   ApiBridge._extract_response response = Ok (spec_extract response)
   /\ McpServer._extract_response response = Ok (spec_extract response))
  /\ (supported_shape response = false ->
      exists e, ApiBridge._extract_response response = Raise e
                /\ McpServer._extract_response response = Raise e).
Proof.
  split.
  - intros S. split; [|rewrite extract_response_same]; now apply extract_supported.
  - intros S. destruct (extract_unsupported _ S) as (e & E).
    exists e. split; [|rewrite extract_response_same]; exact E.
Qed.

End Extractor.

(* ================================================================== *)
(** ** The conversation store of the HTTP bridge *)

Section Conversations.
Import PyString Py CopilotClient ApiBridge Spec.

Lemma find_set_conversation (cs : list (string * list pyval)) (conv_id : string)
    (history : list pyval) :
  find_conversation (set_conversation cs conv_id history) conv_id = Some history.
Proof.
  induction cs as [|[k h] cs IH]; simpl.
  - now rewrite String.eqb_refl.
  - destruct (String.eqb conv_id k) eqn:E; simpl; rewrite E; [reflexivity | assumption].
Qed.

(** A request that starts a conversation gets a fresh id and a history of
    one system turn, already in the store. *)
Lemma open_conversation_new (w : world) (st : store) (owner name : string)
    (request : QueryRequest) :
  starts_conversation st request ->
  let created :=
    [turn "system"
       (PyStr (system_content owner name (fetch_file_context w (owner ++ "/" ++ name))))] in
  open_conversation w st owner name request =
  (Store (set_conversation (_conversations st) (next_id st) created) (_conv_counter st + 1),
   next_id st, created).
Proof.
  unfold starts_conversation, open_conversation.
  destruct (conversationId request) as [conv_id|]; [|reflexivity].
  intros ->. now destruct (nonempty conv_id).
Qed.

Lemma open_conversation_known (w : world) (st : store) (owner name : string)
    (request : QueryRequest) (conv_id : string) (history : list pyval) :
  conversationId request = Some conv_id ->
  nonempty conv_id = true ->
  find_conversation (_conversations st) conv_id = Some history ->
  open_conversation w st owner name request = (st, conv_id, history).
Proof.
  intros E N F. unfold open_conversation. now rewrite E, N, F.
Qed.

(** What a query does once the conversation is open. *)
Lemma api_query_space_run (w : world) (st st1 : store) (owner name : string)
    (request : QueryRequest) (conv_id : string) (before : list pyval) :
  open_conversation w st owner name request = (st1, conv_id, before) ->
  let history := (before ++ [turn "user" (PyStr (prompt request))])%list in
  let out := api_query_space w st owner name request in
  chat_calls out = [(owner ++ "/" ++ name, last_n 20 history)]
  /\ (exists rest,
         find_conversation (_conversations (store_after out)) conv_id
         = Some (history ++ rest)%list
         /\ (rest = [] \/ exists a, rest = [turn "assistant" a]))
  /\ (forall response a,
         query_copilot_space w (owner ++ "/" ++ name) (last_n 20 history) = Ok response ->
         _extract_response response = Ok a ->
         reply out = Http200 (PyDict [("conversationId", PyStr conv_id);
                                      ("response", a);
                                      ("spaceId", PyStr (owner ++ "/" ++ name))])).
Proof.
  intros Hopen history out. unfold out, api_query_space.
  rewrite Hopen. unfold append_turn. fold history. cbn [_conversations _conv_counter].
  destruct (query_copilot_space w (owner ++ "/" ++ name) (last_n 20 history))
    as [response|[cls msg]].
  - destruct (_extract_response response) as [a|[cls msg]] eqn:X; cbn.
    + split; [reflexivity|]. split.
      * exists [turn "assistant" a]. rewrite find_set_conversation. eauto.
      * intros response' a' E1 E2. inversion E1; subst response'.
        rewrite X in E2. now inversion E2.
    + split; [reflexivity|]. split.
      * exists []. rewrite find_set_conversation, app_nil_r. eauto.
      * intros response' a' E1 E2. inversion E1; subst response'.
        rewrite X in E2. discriminate.
  - cbn. split; [reflexivity|]. split.
    + exists []. rewrite find_set_conversation, app_nil_r. eauto.
    + intros response' a' E1. discriminate.
Qed.

Lemma last_n_length {A} (n : nat) (l : list A) :
  List.length (last_n n l) = Nat.min (List.length l) n.
Proof. unfold last_n. rewrite length_skipn. lia. Qed.

Lemma last_n_suffix {A} (n : nat) (l : list A) :
  l = (firstn (List.length l - n) l ++ last_n n l)%list.
Proof. unfold last_n. now rewrite firstn_skipn. Qed.

(** C8. A query that names no conversation, or an unknown one, creates a
    conversation of exactly one turn, a system turn, before the user turn is
    appended, and the stored history keeps that system turn first and has no
    other.  For every query, the message list given to the chat call is the
    last [min (length, 20)] turns of the stored history with the user turn
    appended. *)
Theorem conversation_store_query (w : world) (st : store) (owner name : string)
    (request : QueryRequest) :
  let user := turn "user" (PyStr (prompt request)) in
  let out := api_query_space w st owner name request in
  (starts_conversation st request ->
   exists st1 conv_id text,
     open_conversation w st owner name request = (st1, conv_id, [turn "system" (PyStr text)])
     /\ find_conversation (_conversations st1) conv_id = Some [turn "system" (PyStr text)]
     /\ exists rest,
          find_conversation (_conversations (store_after out)) conv_id
          = Some (turn "system" (PyStr text) :: user :: rest)
          /\ system_turns (turn "system" (PyStr text) :: user :: rest) = 1)
  /\ (exists st1 conv_id before,
         open_conversation w st owner name request = (st1, conv_id, before)
         /\ (forall known history,
                conversationId request = Some known -> nonempty known = true ->
                find_conversation (_conversations st) known = Some history ->
                before = history)
         /\ let history := (before ++ [user])%list in
            chat_calls out = [(owner ++ "/" ++ name, last_n 20 history)]
            /\ List.length (last_n 20 history) = Nat.min (List.length history) 20
            /\ history = (firstn (List.length history - 20) history ++ last_n 20 history)%list).
Proof.
  intros user out. split.
  - intros Hnew. pose proof (@open_conversation_new w st owner name request Hnew) as Hopen.
    cbv zeta in Hopen.
    do 3 eexists. split; [exact Hopen|].
    split; [cbn [_conversations]; apply find_set_conversation|].
    destruct (@api_query_space_run w st _ owner name request _ _ Hopen) as (_ & (rest & F & R) & _).
    exists rest. split; [exact F|].
    destruct R as [->|(a & ->)]; reflexivity.
  - destruct (open_conversation w st owner name request) as [[st1 conv_id] before] eqn:Hopen.
    exists st1, conv_id, before. split; [reflexivity|]. split.
    + intros known history E N F.
      rewrite (@open_conversation_known w st owner name request _ _ E N F) in Hopen.
      now inversion Hopen.
    + destruct (@api_query_space_run w st _ owner name request _ _ Hopen) as (C & _).
      split; [exact C|]. split; [apply last_n_length | apply last_n_suffix].
Qed.

Lemma fetch_file_context_raise (w : world) (space_ref : string) (e : exn) :
  get_copilot_space w space_ref = Raise e ->
  fetch_file_context w space_ref = PyStr "".
Proof. intros H. unfold fetch_file_context. now rewrite H. Qed.

(** C10. When fetching the space raises while a conversation is created, the
    exception is swallowed: the system turn is created with the placeholder
    text saying that no knowledge files are attached, the chat call receives
    that turn and the user turn, and the query answers with the chat reply
    whenever the chat call itself succeeds. *)
Theorem missing_context_placeholder (w : world) (st : store) (owner name : string)
    (request : QueryRequest) (e : exn) :
  starts_conversation st request ->
  get_copilot_space w (owner ++ "/" ++ name) = Raise e ->
  let system := turn "system" (PyStr (placeholder_content owner name)) in
  let user := turn "user" (PyStr (prompt request)) in
  let out := api_query_space w st owner name request in
  chat_calls out = [(owner ++ "/" ++ name, [system; user])]
  /\ (exists rest,
         find_conversation (_conversations (store_after out)) (next_id st)
         = Some (system :: user :: rest))
  /\ (forall response a,
         query_copilot_space w (owner ++ "/" ++ name) [system; user] = Ok response ->
         _extract_response response = Ok a ->
         reply out = Http200 (PyDict [("conversationId", PyStr (next_id st));
                                      ("response", a);
                                      ("spaceId", PyStr (owner ++ "/" ++ name))])).
Proof.
  intros Hnew Hget system user out.
  pose proof (@open_conversation_new w st owner name request Hnew) as Hopen. cbv zeta in Hopen.
  rewrite (@fetch_file_context_raise _ _ _ Hget) in Hopen.
  change (system_content owner name (PyStr "")) with (placeholder_content owner name) in Hopen.
  destruct (@api_query_space_run w st _ owner name request _ _ Hopen) as (C & (rest & F & _) & R).
  split; [exact C|]. split; [exists rest; exact F | exact R].
Qed.

End Conversations.

(* ================================================================== *)
(** ** The [query_space] tool of the MCP server *)

Section Tool.
Import PyString Py CopilotClient McpServer Spec.
Context {loads : JsonLoads}.

(** C9 (amended). A conversation history on which [json.loads] raises
    [JSONDecodeError] counts as the empty list: the chat call receives the
    user turn alone, the tool answers as it does for the history [[]], and its
    output is the chat reply (or the error of the chat call), not an error
    about the history.  When [json.loads] raises an exception of another
    class, the tool answers with the error object of that exception and makes
    no chat call. *)
Theorem malformed_history_is_empty (w : world) (space_id prompt conversation_history : string) :
  let user := turn "user" (PyStr prompt) in
  let run := query_space w space_id prompt conversation_history in
  (json_loads conversation_history = JSONDecodeError ->
   tool_chat_calls run = [(space_id, [user])]
   /\ tool_output run =
      match bind (query_copilot_space w space_id [user]) _extract_response with
      | Ok assistant_content =>
          json_dumps (PyDict [("response", assistant_content); ("spaceId", PyStr space_id)])
      | Raise e => error_output e
      end
   /\ (forall empty, json_loads empty = Decoded (PyList []) ->
                     query_space w space_id prompt empty = run))
  /\ (forall e, json_loads conversation_history = LoadsRaises e ->
                caught_by ["JSONDecodeError"] e = false ->
                tool_chat_calls run = [] /\ tool_output run = error_output e).
Proof.
  intros user run. split.
  - intros Hbad.
    assert (E : run =
                match bind (query_copilot_space w space_id [user]) _extract_response with
                | Ok assistant_content =>
                    ToolRun [(space_id, [user])]
                      (json_dumps (PyDict [("response", assistant_content);
                                           ("spaceId", PyStr space_id)]))
                | Raise e => ToolRun [(space_id, [user])] (error_output e)
                end).
    { unfold run, query_space. rewrite Hbad. reflexivity. }
    split; [|split].
    + rewrite E. now destruct (bind _ _).
    + rewrite E. now destruct (bind _ _).
    + intros empty Hempty. rewrite E. unfold query_space. rewrite Hempty. reflexivity.
  - intros e Hraise Hclass. unfold run, query_space. rewrite Hraise, Hclass. now split.
Qed.

End Tool.

(* ================================================================== *)
(** ** The properties on the sample upstreams *)

Section Instances.
Import PyString Py CopilotClient Spec Samples.

Lemma sample_ready (listed fetched : result call_tool_result) (late : option exn)
    (reply : result pyval) :
  session_ready (sample_world listed fetched late reply) (session listed fetched late).
Proof. exists "ghp_token". repeat split. Qed.

Lemma cleanup_exception_tolerance_witness :
  @list_copilot_spaces sample_loads late_cleanup_world
  = Ok (PyList [PyDict [("owner_login", PyStr "a"); ("name", PyStr "b");
                        ("space_ref", PyStr "a/b")];
                PyDict [("owner", PyDict [("login", PyStr "c")]); ("name", PyStr "d");
                        ("space_ref", PyStr "c/d")];
                PyDict [("name", PyStr "e"); ("space_ref", PyStr "e")]])
  /\ @list_copilot_spaces sample_loads empty_listing_world = Raise cleanup_error
  /\ @list_copilot_spaces sample_loads failing_world = Raise cleanup_error
  /\ get_copilot_space late_cleanup_world "acme/docs"
     = Ok (space_record "acme" "docs" "acme/docs" space_items)
  /\ get_copilot_space failing_world "acme/docs" = Raise cleanup_error.
Proof.
  destruct (@cleanup_exception_tolerance sample_loads late_cleanup_world _ cleanup_error
              (sample_ready _ _ _ _)) as (Hlist & _ & Hget & _).
  destruct (@cleanup_exception_tolerance sample_loads empty_listing_world _ cleanup_error
              (sample_ready _ _ _ _)) as (Hempty & _).
  destruct (@cleanup_exception_tolerance sample_loads failing_world _ cleanup_error
              (sample_ready _ _ _ _)) as (_ & Hlist_fails & _ & Hget_fails).
  split; [exact (Hlist spaces_answer _ _ eq_refl eq_refl eq_refl eq_refl)|].
  split; [exact (Hempty no_spaces_answer _ _ eq_refl eq_refl eq_refl eq_refl)|].
  split; [exact (Hlist_fails tool_error eq_refl eq_refl)|].
  split; [exact (Hget "acme/docs" _ eq_refl eq_refl)|].
  exact (Hget_fails "acme/docs" tool_error eq_refl eq_refl).
Defined.

(** The scenario of the specification: the name item renames the space, the
    blank file is left out. *)
Lemma space_fetcher_record_scenario :
  exists space,
    get_copilot_space late_cleanup_world "acme/docs" = Ok (PyDict space)
    /\ dict_lookup space "name" = Some (PyStr "My Space")
    /\ dict_lookup space "files"
       = Some (PyList [PyDict [("path", PyStr "a.md"); ("content", PyStr "hello")]])
    /\ dict_lookup space "context" = Some (PyStr ("### File: a.md" ++ LF ++ LF ++ "hello")).
Proof.
  destruct (@space_fetcher_record late_cleanup_world _ "acme/docs"
              (CallToolResult (Some space_items)) (sample_ready _ _ _ _) eq_refl)
    as (space & Hget & Hname & Hfiles & Hcontext & _).
  exists space. split; [exact Hget|]. split; [exact Hname|]. split; [exact Hfiles|].
  exact Hcontext.
Defined.

(** C2. The files list is to hold one entry for every item whose URI
    contains [/files/] and whose text has a non-empty trim.  For a space with
    a file stored at the path [contents/name] the fetcher returns no file at
    all: the URI also contains [/contents/name], so the item is taken for the
    name of the space and the test for a file is never reached. *)
Theorem space_fetcher_shadowed_file :
  get_copilot_space shadowing_world "acme/docs"
  = Ok (PyDict [("name", PyStr "hello"); ("owner", PyStr "acme");
                ("space_ref", PyStr "acme/docs"); ("files", PyList []);
                ("context", PyStr "")])
  /\ spec_files shadowing_items = [File "contents/name" "hello"].
Proof. split; reflexivity. Qed.

Lemma space_ref_is_the_reference_witness :
  space_ref_derivable (space_record "acme" "docs" "acme/docs" unnamed_items) = true
  /\ field (space_record "acme" "docs" "acme/docs" unnamed_items) "space_ref"
     = Some (PyStr "acme/docs").
Proof.
  destruct (@space_ref_is_the_reference unnamed_world "acme/docs"
              (space_record "acme" "docs" "acme/docs" unnamed_items) eq_refl eq_refl)
    as (r & display & _ & _ & _ & Href & Hname & _ & _ & Hderivable & _).
  split; [|exact Href].
  apply (Hderivable (or_introl eq_refl)).
  cbn in Hname. now inversion Hname.
Defined.

(** The name item renames the space, and the reference no longer follows
    from the record's owner and name. *)
Lemma space_ref_counterexample :
  get_copilot_space late_cleanup_world "acme/docs"
  = Ok (space_record "acme" "docs" "acme/docs" space_items)
  /\ field (space_record "acme" "docs" "acme/docs" space_items) "owner" = Some (PyStr "acme")
  /\ field (space_record "acme" "docs" "acme/docs" space_items) "name" = Some (PyStr "My Space")
  /\ field (space_record "acme" "docs" "acme/docs" space_items) "space_ref"
     = Some (PyStr "acme/docs")
  /\ space_ref_derivable (space_record "acme" "docs" "acme/docs" space_items) = false.
Proof. repeat split. Qed.

Lemma parse_mcp_result_cases_witness :
  @_parse_mcp_result sample_loads (first_of (blob_item "space://x/1/files/logo.png") [])
  = Ok PyNone
  /\ @_parse_mcp_result sample_loads (first_of (resource_item "spaces://list" "[]") [])
     = Ok (PyList [])
  /\ @_parse_mcp_result sample_loads (first_of (text_item "hello") [text_item "[]"])
     = Ok (PyStr "hello")
  /\ @_parse_mcp_result MoreSamples.deep_loads
       (first_of (text_item MoreSamples.deep_text) [])
     = Raise MoreSamples.recursion_error.
Proof.
  destruct (@parse_mcp_result_cases sample_loads)
    as (_ & _ & _ & _ & Habsent & Hvalid & Hraw & _).
  destruct (@parse_mcp_result_cases MoreSamples.deep_loads)
    as (_ & _ & _ & _ & _ & _ & _ & Hraise).
  split; [exact (Habsent (blob_item "space://x/1/files/logo.png") [] eq_refl)|].
  split; [exact (Hvalid (resource_item "spaces://list" "[]") [] "[]" (PyList [])
                   eq_refl eq_refl)|].
  split; [exact (Hraw (text_item "hello") [text_item "[]"] "hello" eq_refl eq_refl)|].
  refine (Hraise (text_item MoreSamples.deep_text) [] MoreSamples.deep_text
            MoreSamples.recursion_error _ _).
  - reflexivity.
  - unfold json_loads, MoreSamples.deep_loads. now rewrite String.eqb_refl.
Defined.

(** An item without a nested resource object, tagged as a resource or with
    its [resource] attribute set to [None], gives absent although it carries
    a text of its own; and a text nested too deeply, which is no valid JSON,
    makes the parser raise. *)
Lemma parse_mcp_result_counterexample :
  @_parse_mcp_result sample_loads (first_of tagged_without_resource []) = Ok PyNone
  /\ @spec_parse sample_loads (first_of tagged_without_resource []) = PyStr "hello"
  /\ @_parse_mcp_result sample_loads (first_of null_resource []) = Ok PyNone
  /\ @spec_parse sample_loads (first_of null_resource []) = PyStr "hello"
  /\ @_parse_mcp_result MoreSamples.deep_loads
       (first_of (text_item MoreSamples.deep_text) [])
     = Raise MoreSamples.recursion_error.
Proof.
  do 4 (split; [reflexivity|]).
  unfold _parse_mcp_result, first_of, loads_or_text, json_loads, MoreSamples.deep_loads.
  cbn [content text_item item_type item_resource item_text hasattr orb].
  cbn [String.eqb Ascii.eqb Bool.eqb andb]. now rewrite String.eqb_refl.
Qed.

Lemma lister_adds_space_ref_witness :
  exists out,
    @list_copilot_spaces sample_loads late_cleanup_world = Ok (PyList out)
    /\ (exists space, nth_error out 0 = Some (PyDict space)
                      /\ dict_lookup space "space_ref" = Some (PyStr "a/b"))
    /\ (exists space, nth_error out 1 = Some (PyDict space)
                      /\ dict_lookup space "space_ref" = Some (PyStr "c/d"))
    /\ (exists space, nth_error out 2 = Some (PyDict space)
                      /\ dict_lookup space "space_ref" = Some (PyStr "e")).
Proof.
  destruct (@lister_adds_space_ref sample_loads late_cleanup_world _ spaces_answer
              sample_spaces
              [PyDict [("owner_login", PyStr "a"); ("name", PyStr "b")];
               PyDict [("owner", PyDict [("login", PyStr "c")]); ("name", PyStr "d")];
               PyDict [("name", PyStr "e")]]
              (sample_ready _ _ _ _) eq_refl eq_refl eq_refl
              (or_intror (fun H => eq_ind [] (fun l => match l with [] => True | _ :: _ => False end)
                                     I _ (eq_sym H))))
    as (out & Hlist & _ & Hrecords).
  exists out. split; [exact Hlist|].
  split; [|split].
  - destruct (Hrecords 0 _ eq_refl) as (space & Hnth & Href & _). exists space. now split.
  - destruct (Hrecords 1 _ eq_refl) as (space & Hnth & Href & _). exists space. now split.
  - destruct (Hrecords 2 _ eq_refl) as (space & Hnth & Href & _). exists space. now split.
Defined.



Lemma extract_response_cases_witness :
  ApiBridge._extract_response reply_hi = Ok (PyStr "hi")
  /\ McpServer._extract_response reply_yo = Ok (PyStr "yo")
  /\ ApiBridge._extract_response reply_foo
     = Ok (PyStr ("{" ++ dquote ++ "foo" ++ dquote ++ ": " ++ dquote ++ "bar" ++ dquote ++ "}"))
  /\ exists e, ApiBridge._extract_response reply_choices_number = Raise e.
Proof.
  split; [exact (proj1 (proj1 (extract_response_cases reply_hi) eq_refl))|].
  split; [exact (proj2 (proj1 (extract_response_cases reply_yo) eq_refl))|].
  split; [exact (proj1 (proj1 (extract_response_cases reply_foo) eq_refl))|].
  destruct (proj2 (extract_response_cases reply_choices_number) eq_refl) as (e & He & _).
  exists e. exact He.
Defined.

(** With [choices] set to [null] the response has no non-empty choices
    sequence and has a message, yet the extractor raises. *)
Lemma extract_response_cases_counterexample :
  ApiBridge._extract_response reply_null_choices
  = Raise (Exn "TypeError" "object of type 'NoneType' has no len()")
  /\ McpServer._extract_response reply_null_choices
     = Raise (Exn "TypeError" "object of type 'NoneType' has no len()")
  /\ spec_extract reply_null_choices = PyStr "yo".
Proof. repeat split. Qed.

Lemma conversation_store_query_witness :
  exists text rest,
    ApiBridge.find_conversation
      (ApiBridge._conversations
         (ApiBridge.store_after
            (ApiBridge.api_query_space late_cleanup_world empty_store "acme" "docs"
               first_request))) "conv-1"
    = Some (turn "system" (PyStr text) :: turn "user" (PyStr "What is X?") :: rest)
    /\ system_turns (turn "system" (PyStr text) :: turn "user" (PyStr "What is X?") :: rest) = 1
    /\ ApiBridge.chat_calls
         (ApiBridge.api_query_space late_cleanup_world empty_store "acme" "docs" first_request)
       = [("acme/docs", [turn "system" (PyStr text); turn "user" (PyStr "What is X?")])].
Proof.
  destruct (conversation_store_query late_cleanup_world empty_store "acme" "docs" first_request)
    as (Hnew & (st2 & conv_id2 & before & Hopen2 & _ & Hcalls & _)).
  destruct (Hnew I) as (st1 & conv_id & text & Hopen & _ & rest & Hstored & Hone).
  rewrite Hopen in Hopen2. inversion Hopen2; subst st2 conv_id2 before.
  assert (Hid : conv_id = "conv-1").
  { cbv in Hopen. now inversion Hopen. }
  subst conv_id.
  exists text, rest. split; [exact Hstored|]. split; [exact Hone|]. exact Hcalls.
Defined.

Lemma deep_text_raises :
  @json_loads MoreSamples.deep_loads MoreSamples.deep_text
  = LoadsRaises MoreSamples.recursion_error.
Proof. unfold json_loads, MoreSamples.deep_loads. now rewrite String.eqb_refl. Qed.

Lemma malformed_history_is_empty_witness :
  McpServer.tool_chat_calls
    (@McpServer.query_space sample_loads late_cleanup_world "acme/docs" "hello" "not json")
  = [("acme/docs", [turn "user" (PyStr "hello")])]
  /\ McpServer.tool_output
       (@McpServer.query_space sample_loads late_cleanup_world "acme/docs" "hello" "not json")
     = json_dumps (PyDict [("response", PyStr "hi"); ("spaceId", PyStr "acme/docs")])
  /\ McpServer.tool_chat_calls
       (@McpServer.query_space MoreSamples.deep_loads late_cleanup_world "acme/docs" "hello"
          MoreSamples.deep_text)
     = [].
Proof.
  destruct (@malformed_history_is_empty sample_loads late_cleanup_world "acme/docs" "hello"
              "not json") as (Hempty & _).
  destruct (Hempty eq_refl) as (Hcalls & Houtput & _).
  destruct (@malformed_history_is_empty MoreSamples.deep_loads late_cleanup_world "acme/docs"
              "hello" MoreSamples.deep_text) as (_ & Hraise).
  split; [exact Hcalls|]. split; [exact Houtput|].
  exact (proj1 (Hraise _ deep_text_raises eq_refl)).
Defined.

(** A history of a hundred thousand opening brackets is no valid JSON, yet
    it is not taken for the empty list: [json.loads] raises [RecursionError],
    the tool answers with an error object and the chat endpoint is not
    called. *)
Lemma malformed_history_counterexample :
  McpServer.tool_chat_calls
    (@McpServer.query_space MoreSamples.deep_loads late_cleanup_world "acme/docs" "hello"
       MoreSamples.deep_text)
  = []
  /\ McpServer.tool_output
       (@McpServer.query_space MoreSamples.deep_loads late_cleanup_world "acme/docs" "hello"
          MoreSamples.deep_text)
     = json_dumps
         (PyDict [("error",
                   PyStr "maximum recursion depth exceeded while decoding a JSON array from a unicode string")])
  /\ McpServer.tool_chat_calls
       (@McpServer.query_space MoreSamples.deep_loads late_cleanup_world "acme/docs" "hello"
          MoreSamples.deep_text)
     <> [("acme/docs", [turn "user" (PyStr "hello")])].
Proof.
  unfold McpServer.query_space. rewrite deep_text_raises.
  split; [reflexivity|]. split; [reflexivity|]. discriminate.
Qed.

Lemma missing_context_placeholder_witness :
  ApiBridge.chat_calls
    (ApiBridge.api_query_space failing_world empty_store "acme" "docs" first_request)
  = [("acme/docs", [turn "system" (PyStr (placeholder_content "acme" "docs"));
                    turn "user" (PyStr "What is X?")])]
  /\ ApiBridge.reply
       (ApiBridge.api_query_space failing_world empty_store "acme" "docs" first_request)
     = ApiBridge.Http200 (PyDict [("conversationId", PyStr "conv-1");
                                  ("response", PyStr "hi");
                                  ("spaceId", PyStr "acme/docs")]).
Proof.
  destruct (@missing_context_placeholder failing_world empty_store "acme" "docs" first_request
              cleanup_error I eq_refl) as (Hcalls & _ & Hreply).
  split; [exact Hcalls|].
  exact (Hreply reply_hi (PyStr "hi") eq_refl eq_refl).
Defined.

End Instances.

(* ================================================================== *)
(** ** The credential and the chat call *)

Section Credential.
Import PyString Py CopilotClient Spec Invariants.
Context {loads : JsonLoads}.

Lemma get_token_missing (w : world) :
  token_missing w -> _get_token w = Raise token_error.
Proof. unfold _get_token. now intros [-> | ->]. Qed.

Lemma list_copilot_spaces_ready (w : world) (s : mcp_session) (r : call_tool_result)
    (data : pyval) :
  session_ready w s ->
  call_tool s "list_copilot_spaces" [] = Ok r ->
  _parse_mcp_result (Some r) = Ok data ->
  let selected := select_spaces data in
  list_copilot_spaces w =
  return_listed
    match add_space_refs selected with
    | Ok normalised => (normalised, teardown s None)
    | Raise e => (selected, teardown s (Some e))
    end.
Proof.
  intros Hready Hcall Hparse selected.
  unfold list_copilot_spaces. rewrite (list_try_ready Hready).
  destruct Hready as (_ & _ & _ & _ & _ & _ & Hinit).
  unfold list_in_session. rewrite Hinit, Hcall, Hparse. fold selected.
  now destruct (add_space_refs selected).
Qed.

(** X1. Without a token nothing reaches an upstream: the three client
    operations raise the configuration error, whatever the upstreams would
    answer, and every front end reports that message. *)
Theorem missing_token_fails_everywhere (w : world) :
  token_missing w ->
  list_copilot_spaces w = Raise token_error
  /\ (forall space_ref, get_copilot_space w space_ref = Raise token_error)
  /\ (forall space_id messages, query_copilot_space w space_id messages = Raise token_error)
  /\ ApiBridge.api_list_spaces w
     = ApiBridge.Http500
         "GITHUB_TOKEN environment variable is not set. Create a GitHub PAT with 'copilot' scope."
  /\ (forall owner name,
         ApiBridge.api_get_space w owner name
         = ApiBridge.Http500
             "GITHUB_TOKEN environment variable is not set. Create a GitHub PAT with 'copilot' scope.")
  /\ (forall st owner name request,
         ApiBridge.reply (ApiBridge.api_query_space w st owner name request)
         = ApiBridge.Http500
             "GITHUB_TOKEN environment variable is not set. Create a GitHub PAT with 'copilot' scope.")
  /\ McpServer.list_spaces w = McpServer.error_output token_error.
Proof.
  intros Hmiss. pose proof (get_token_missing Hmiss) as Htok.
  assert (Hlist : list_copilot_spaces w = Raise token_error).
  { unfold list_copilot_spaces, list_try, _mcp_headers. now rewrite Htok. }
  assert (Hget : forall space_ref, get_copilot_space w space_ref = Raise token_error).
  { intros space_ref. unfold get_copilot_space, get_try, _mcp_headers. rewrite Htok.
    now destruct (split_ref space_ref). }
  assert (Hchat : forall space_id messages,
             query_copilot_space w space_id messages = Raise token_error).
  { intros. unfold query_copilot_space. now rewrite Htok. }
  split; [exact Hlist|]. split; [exact Hget|]. split; [exact Hchat|].
  split; [unfold ApiBridge.api_list_spaces; now rewrite Hlist|].
  split; [intros; unfold ApiBridge.api_get_space; now rewrite Hget|].
  split.
  - intros st owner name request. unfold ApiBridge.api_query_space.
    destruct (ApiBridge.open_conversation w st owner name request) as [[st1 conv_id] before].
    cbn. now rewrite Hchat.
  - unfold McpServer.list_spaces. now rewrite Hlist.
Qed.

(** X2. With a token, the chat call hands an upstream failure on unchanged,
    returns an object body as it is, and raises [AttributeError] for a body
    that is valid JSON but no object. *)
Theorem chat_result_passthrough (w : world) (token space_id : string) (messages : list pyval) :
  getenv w "GITHUB_TOKEN" = Some token ->
  nonempty token = true ->
  (forall e, post_chat w token messages = Raise e ->
             query_copilot_space w space_id messages = Raise e)
  /\ (forall response, post_chat w token messages = Ok (PyDict response) ->
                       query_copilot_space w space_id messages = Ok response)
  /\ (forall body, post_chat w token messages = Ok body ->
                   is_dict body = false ->
                   query_copilot_space w space_id messages
                   = Raise (Exn "AttributeError"
                              ("'" ++ type_name body ++ "' object has no attribute 'get'"))).
Proof.
  intros Htok Hne. unfold query_copilot_space, _get_token. rewrite Htok, Hne. cbn [bind].
  split; [|split].
  - now intros e ->.
  - now intros response ->.
  - intros body -> Hbody. now destruct body.
Qed.

End Credential.

(* ================================================================== *)
(** ** More on the Space Lister *)

Section Lister.
Import PyString Py CopilotClient Spec Invariants.
Context {loads : JsonLoads}.

Lemma list_copilot_spaces_clean (w : world) (s : mcp_session) (r : call_tool_result)
    (data : pyval) (l : list pyval) :
  session_ready w s ->
  call_tool s "list_copilot_spaces" [] = Ok r ->
  teardown s None = None ->
  _parse_mcp_result (Some r) = Ok data ->
  select_spaces data = PyList l ->
  list_copilot_spaces w = Ok (PyList (map add_space_ref l)).
Proof.
  intros Hready Hcall Hdown Hparse Hsel.
  rewrite (list_copilot_spaces_ready Hready Hcall Hparse). cbv zeta. rewrite Hsel.
  cbn [add_space_refs]. now rewrite Hdown.
Qed.

(** X3. With a clean teardown, a listing wrapped in an object is read like
    the bare list: [spaces] is used when the key is there (whatever [items]
    holds), else [items]; an object with neither key, and any decoded value
    that is neither a list nor an object (absent, a raw string, a number),
    gives the empty list and no error. *)
Theorem lister_envelopes (w : world) (s : mcp_session) (r : call_tool_result)
    (data : pyval) :
  session_ready w s ->
  call_tool s "list_copilot_spaces" [] = Ok r ->
  teardown s None = None ->
  _parse_mcp_result (Some r) = Ok data ->
  (forall l, data = PyList l -> list_copilot_spaces w = Ok (PyList (map add_space_ref l)))
  /\ (forall d l, data = PyDict d -> dict_lookup d "spaces" = Some (PyList l) ->
                  list_copilot_spaces w = Ok (PyList (map add_space_ref l)))
  /\ (forall d l, data = PyDict d -> dict_lookup d "spaces" = None ->
                  dict_lookup d "items" = Some (PyList l) ->
                  list_copilot_spaces w = Ok (PyList (map add_space_ref l)))
  /\ (forall d, data = PyDict d -> dict_lookup d "spaces" = None ->
                dict_lookup d "items" = None ->
                list_copilot_spaces w = Ok (PyList []))
  /\ (is_dict data = false -> (forall l, data <> PyList l) ->
      list_copilot_spaces w = Ok (PyList [])).
Proof.
  intros Hready Hcall Hdown Hparse.
  split; [|split; [|split; [|split]]].
  - intros l E. apply (list_copilot_spaces_clean Hready Hcall Hdown Hparse).
    now rewrite E.
  - intros d l E S. apply (list_copilot_spaces_clean Hready Hcall Hdown Hparse).
    rewrite E. unfold select_spaces, dict_get. now rewrite S.
  - intros d l E S I. apply (list_copilot_spaces_clean Hready Hcall Hdown Hparse).
    rewrite E. unfold select_spaces, dict_get. now rewrite S, I.
  - intros d E S I.
    change (PyList []) with (PyList (map add_space_ref [])).
    apply (list_copilot_spaces_clean Hready Hcall Hdown Hparse).
    rewrite E. unfold select_spaces, dict_get. now rewrite S, I.
  - intros Hd Hl.
    change (PyList []) with (PyList (map add_space_ref [])).
    apply (list_copilot_spaces_clean Hready Hcall Hdown Hparse).
    destruct data; try reflexivity; [now elim (Hl items) | discriminate].
Qed.


Lemma dict_set_twice (d : dict) (k : string) (v : pyval) :
  dict_set (dict_set d k v) k v = dict_set d k v.
Proof.
  induction d as [|[k' v'] d IH]; simpl.
  - now rewrite String.eqb_refl.
  - destruct (String.eqb k k') eqn:E; simpl; rewrite E; [reflexivity | now rewrite IH].
Qed.

Lemma spec_space_ref_after_set (d : dict) (v : pyval) :
  spec_space_ref (dict_set d "space_ref" v) = spec_space_ref d.
Proof.
  unfold spec_space_ref, spec_owner.
  rewrite !dict_lookup_set_other by discriminate. reflexivity.
Qed.

(** X5. Adding the references is idempotent: a listing that went through the
    loop once is left as it is by a second pass, and the loop keeps the
    length of the list and every element that is no record. *)
Theorem add_space_ref_idempotent (l : list pyval) :
  map add_space_ref (map add_space_ref l) = map add_space_ref l
  /\ List.length (map add_space_ref l) = List.length l
  /\ (forall i x, nth_error l i = Some x -> is_dict x = false ->
                  nth_error (map add_space_ref l) i = Some x).
Proof.
  split; [|split].
  - rewrite map_map. apply map_ext. intros x.
    destruct x as [| | | | | |d]; try reflexivity.
    rewrite !add_space_ref_dict, spec_space_ref_after_set. now rewrite dict_set_twice.
  - apply length_map.
  - intros i x Hi Hx. rewrite nth_error_map, Hi. now destruct x.
Qed.

(** X6. The MCP tool [list_spaces] turns a failure of the lister into the
    JSON text of an [error] object carrying the message, while the resource
    [spaces://list] lets the same exception through; on success both give the
    same indented text, which is [[]] for an empty listing. *)
Theorem list_tool_and_resource (w : world) :
  (forall cls msg, list_copilot_spaces w = Raise (Exn cls msg) ->
                   McpServer.list_spaces w = json_dumps (PyDict [("error", PyStr msg)])
                   /\ McpServer.spaces_resource w = Raise (Exn cls msg))
  /\ (forall spaces, list_copilot_spaces w = Ok spaces ->
                     McpServer.spaces_resource w = Ok (McpServer.list_spaces w))
  /\ (list_copilot_spaces w = Ok (PyList []) -> McpServer.list_spaces w = "[]").
Proof.
  unfold McpServer.list_spaces, McpServer.spaces_resource.
  split; [|split].
  - now intros cls msg ->.
  - now intros spaces ->.
  - now intros ->.
Qed.

End Lister.

(* ================================================================== *)
(** ** More on the Space Fetcher *)

Section FetchedFiles.
Import PyString Py CopilotClient Spec Invariants.

Lemma string_app_assoc (a b c : string) : (a ++ b) ++ c = a ++ b ++ c.
Proof. induction a as [|x a IH]; simpl; [reflexivity | now rewrite IH]. Qed.

Lemma nonempty_append (a b : string) : nonempty a = true -> nonempty (a ++ b) = true.
Proof. now destruct a. Qed.

Lemma contains_after (sub p s : string) :
  contains sub s = true -> contains sub (p ++ s) = true.
Proof.
  rewrite !contains_iff. intros (a & b & ->).
  exists (p ++ a), b. now rewrite string_app_assoc.
Qed.

Lemma contains_before (sub s q : string) :
  contains sub s = true -> contains sub (s ++ q) = true.
Proof.
  rewrite !contains_iff. intros (a & b & ->).
  exists a, (b ++ q). now rewrite !string_app_assoc.
Qed.

Lemma contains_self (s : string) : contains s s = true.
Proof.
  apply contains_iff. exists "", "". simpl.
  induction s as [|c s IH]; simpl; [reflexivity | now rewrite <- IH].
Qed.

Lemma join_cons (sep p : string) (ps : list string) :
  join sep (p :: ps) = match ps with [] => p | _ :: _ => p ++ sep ++ join sep ps end.
Proof. reflexivity. Qed.

Lemma contains_join (sep sub : string) (parts : list string) (p : string) :
  In p parts -> contains sub p = true -> contains sub (join sep parts) = true.
Proof.
  induction parts as [|q parts IH]; [contradiction|].
  intros [->|Hin] Hsub; rewrite join_cons.
  - destruct parts; [assumption | now apply contains_before].
  - destruct parts as [|q' parts]; [contradiction|].
    do 2 apply contains_after. now apply IH.
Qed.

Lemma length_resources (items : list content_item) :
  List.length (resources items) <= List.length items.
Proof.
  induction items as [|item items IH]; [reflexivity|].
  rewrite resources_cons. destruct (getattr (item_resource item)); simpl; lia.
Qed.

(** X7. Every entry of the [files] the fetcher returns comes from a returned
    resource item whose URI contains [/files/] and whose text is not blank,
    with the text stored as it is and the path read off the URI, and there
    are no more entries than items. *)
Theorem fetched_files_come_from_items (w : world) (s : mcp_session) (space_ref : string)
    (r : call_tool_result) :
  session_ready w s ->
  call_tool s "get_copilot_space" (get_arguments space_ref) = Ok r ->
  let items := match content r with Some l => l | None => [] end in
  exists space entries,
    get_copilot_space w space_ref = Ok (PyDict space)
    /\ dict_lookup space "files" = Some (PyList entries)
    /\ Forall (file_entry_ok items) entries
    /\ List.length entries <= List.length items.
Proof.
  intros Hready Hcall items.
  do 2 eexists. split; [|split; [|split]].
  - rewrite (get_copilot_space_returns space_ref Hready Hcall). reflexivity.
  - reflexivity.
  - fold items. rewrite walk_content_spec. cbn [files].
    apply Forall_forall. intros entry Hin.
    apply in_map_iff in Hin. destruct Hin as (f & <- & Hin).
    unfold kept_files in Hin. apply in_map_iff in Hin. destruct Hin as (res & <- & Hin).
    apply filter_In in Hin. destruct Hin as (Hres & Hkeep).
    apply andb_true_iff in Hkeep. destruct Hkeep as (_ & Hfile).
    unfold holds_a_file in Hfile. apply andb_true_iff in Hfile.
    destruct Hfile as (Huri & Htext).
    exists res. split; [exact Hres|]. split; [reflexivity|]. split; [exact Huri|].
    rewrite strip_nonempty in Htext. now destruct (all_space (text_of res)).
  - fold items. rewrite walk_content_spec. cbn [files].
    rewrite length_map. unfold kept_files. rewrite length_map.
    eapply Nat.le_trans; [apply filter_length_le | apply length_resources].
Qed.

(** X8. The context is empty exactly when no file was kept; the bridge then
    grounds a new conversation with the placeholder text, as it does when the
    fetch fails, and with the files section otherwise. *)
Theorem empty_context_means_no_files (w : world) (s : mcp_session) (owner name : string)
    (r : call_tool_result) :
  session_ready w s ->
  call_tool s "get_copilot_space" (get_arguments (owner ++ "/" ++ name)) = Ok r ->
  let kept := kept_files (match content r with Some l => l | None => [] end) in
  let file_context := ApiBridge.fetch_file_context w (owner ++ "/" ++ name) in
  file_context = PyStr (build_context kept)
  /\ (build_context kept = "" <-> kept = [])
  /\ (kept = [] -> ApiBridge.system_content owner name file_context
                   = placeholder_content owner name)
  /\ (kept <> [] ->
      ApiBridge.system_content owner name file_context
      = "You are GitHub Copilot operating in the '" ++ name ++ "' space (owner: " ++ owner
        ++ "). " ++ "Answer questions using ONLY the knowledge files below. "
        ++ "If the answer is not in the files, say so honestly." ++ LF ++ LF
        ++ "## Space Knowledge Files" ++ LF ++ LF ++ build_context kept).
Proof.
  intros Hready Hcall kept file_context.
  assert (Hctx : file_context = PyStr (build_context kept)).
  { unfold file_context, ApiBridge.fetch_file_context.
    rewrite (get_copilot_space_returns _ Hready Hcall).
    unfold space_record. rewrite walk_content_spec. reflexivity. }
  assert (Hne : kept <> [] -> nonempty (build_context kept) = true).
  { destruct kept as [|f fs]; [congruence|]. intros _.
    unfold build_context. cbn [map]. rewrite join_cons.
    destruct (map context_part fs); reflexivity. }
  split; [exact Hctx|]. split; [|split].
  - split.
    + intros E. destruct kept; [reflexivity|].
      assert (H : nonempty (build_context (f :: kept)) = true) by (apply Hne; discriminate).
      rewrite E in H. discriminate.
    + now intros ->.
  - intros E. rewrite Hctx, E. reflexivity.
  - intros N. rewrite Hctx. unfold ApiBridge.system_content. cbn [truthy py_str].
    now rewrite (Hne N).
Qed.

(** X9. The context holds the header and the whole content of every kept
    file, and so does the system text built from it. *)
Theorem context_contains_each_file (fs : list file) (f : file) (owner name : string) :
  In f fs ->
  contains ("### File: " ++ path f ++ LF ++ LF ++ file_content f) (build_context fs) = true
  /\ contains (file_content f) (build_context fs) = true
  /\ contains (file_content f)
       (ApiBridge.system_content owner name (PyStr (build_context fs))) = true.
Proof.
  intros Hin.
  assert (Hpart : contains (context_part f) (build_context fs) = true).
  { unfold build_context. apply contains_join with (p := context_part f).
    - now apply in_map.
    - apply contains_self. }
  assert (Hcontent : contains (file_content f) (build_context fs) = true).
  { unfold build_context. apply contains_join with (p := context_part f).
    - now apply in_map.
    - unfold context_part. do 4 apply contains_after. apply contains_self. }
  split; [exact Hpart|]. split; [exact Hcontent|].
  unfold ApiBridge.system_content. cbn [truthy py_str].
  assert (Hne : nonempty (build_context fs) = true).
  { destruct fs as [|g fs]; [contradiction|].
    unfold build_context. cbn [map]. rewrite join_cons.
    destruct (map context_part fs); reflexivity. }
  rewrite Hne. do 12 apply contains_after. exact Hcontent.
Qed.

End FetchedFiles.

(* ================================================================== *)
(** ** The routes of the HTTP bridge *)

Section Routes.
Import PyString Py CopilotClient ApiBridge Spec Invariants.

Lemma partition_no_slash (owner name : string) :
  has_slash owner = false ->
  partition "/" (owner ++ "/" ++ name) = Some (owner, name).
Proof.
  induction owner as [|c owner IH]; intros H.
  - rewrite partition_unfold. cbn [append].
    change (String "/" name) with ("/" ++ name). now rewrite prefix_append.
  - cbn [has_slash] in H. apply orb_false_iff in H. destruct H as (Hc & Ho).
    change (String c owner ++ "/" ++ name) with (String c (owner ++ "/" ++ name)).
    rewrite partition_unfold.
    assert (P : prefix "/" (String c (owner ++ "/" ++ name)) = false).
    { cbn [prefix]. destruct (ascii_dec "/" c) as [E|]; [|reflexivity].
      subst c. discriminate. }
    rewrite P. now rewrite (IH Ho).
Qed.

(** X10. The route joins its two path segments with a slash and the fetcher
    splits the reference at the first slash: for an owner segment without a
    slash the tool is called with exactly the owner and the name of the
    route, and the reply is the record of the returned items with that owner
    and the joined reference, or status 500 with the message when the call
    fails. *)
Theorem get_route_round_trip (w : world) (s : mcp_session) (owner name : string) :
  has_slash owner = false ->
  session_ready w s ->
  split_ref (owner ++ "/" ++ name) = (owner, name)
  /\ (forall r,
         call_tool s "get_copilot_space" [("owner", PyStr owner); ("name", PyStr name)] = Ok r ->
         api_get_space w owner name
         = Http200 (space_record owner name (owner ++ "/" ++ name)
                      (match content r with Some l => l | None => [] end)))
  /\ (forall e0 cls msg,
         call_tool s "get_copilot_space" [("owner", PyStr owner); ("name", PyStr name)]
         = Raise e0 ->
         teardown s (Some e0) = Some (Exn cls msg) ->
         api_get_space w owner name = Http500 msg).
Proof.
  intros Hslash Hready.
  assert (Hsplit : split_ref (owner ++ "/" ++ name) = (owner, name)).
  { unfold split_ref. now rewrite partition_no_slash. }
  assert (Hargs : get_arguments (owner ++ "/" ++ name)
                  = [("owner", PyStr owner); ("name", PyStr name)]).
  { unfold get_arguments. now rewrite Hsplit. }
  split; [exact Hsplit|]. split.
  - intros r Hcall. rewrite <- Hargs in Hcall. unfold api_get_space.
    rewrite (get_copilot_space_returns _ Hready Hcall), Hsplit. reflexivity.
  - intros e0 cls msg Hcall Hdown. rewrite <- Hargs in Hcall. unfold api_get_space.
    now rewrite (get_copilot_space_fails _ Hready Hcall Hdown).
Qed.

(** The [context] field of the request body is never read: two requests
    that differ only there are served alike. *)
Lemma request_context_is_ignored (w : world) (st : store) (owner name text : string)
    (conv_id context1 context2 : option string) :
  api_query_space w st owner name (Build_QueryRequest text conv_id context1)
  = api_query_space w st owner name (Build_QueryRequest text conv_id context2).
Proof. reflexivity. Qed.

End Routes.

(* ================================================================== *)
(** ** The conversation store over several requests *)

Section Store.
Import PyString Py CopilotClient ApiBridge Spec Invariants.

Lemma find_set_other (cs : list (string * list pyval)) (k other : string) (h : list pyval) :
  other <> k ->
  find_conversation (set_conversation cs k h) other = find_conversation cs other.
Proof.
  intros N. induction cs as [|[k' h'] cs IH]; simpl.
  - destruct (String.eqb other k) eqn:E; [|reflexivity].
    apply String.eqb_eq in E. contradiction.
  - destruct (String.eqb k k') eqn:E; simpl.
    + apply String.eqb_eq in E; subst k'.
      destruct (String.eqb other k) eqn:E0; [|reflexivity].
      apply String.eqb_eq in E0. contradiction.
    + now rewrite IH.
Qed.

Lemma find_In (cs : list (string * list pyval)) (conv_id : string) (h : list pyval) :
  find_conversation cs conv_id = Some h -> In (conv_id, h) cs.
Proof.
  induction cs as [|[k h'] cs IH]; simpl; [discriminate|].
  destruct (String.eqb conv_id k) eqn:E.
  - apply String.eqb_eq in E; subst k. intros [= ->]. now left.
  - intros H. right. now apply IH.
Qed.

Lemma in_set_conversation (cs : list (string * list pyval)) (k conv_id : string)
    (h history : list pyval) :
  In (conv_id, history) (set_conversation cs k h) ->
  (conv_id = k /\ history = h) \/ In (conv_id, history) cs.
Proof.
  induction cs as [|[k' h'] cs IH]; simpl.
  - intros [[= <- <-]|[]]. now left.
  - destruct (String.eqb k k') eqn:E; simpl.
    + apply String.eqb_eq in E; subst k'.
      intros [[= <- <-]|H]; [now left | right; now right].
    + intros [H|H]; [right; now left|].
      destruct (IH H) as [?|?]; [now left | right; now right].
Qed.

(** Everything one request does to the store and answers, from the
    conversation it opened. *)
Lemma api_query_space_effect (w : world) (st st1 : store) (owner name : string)
    (request : QueryRequest) (conv_id : string) (before : list pyval) :
  open_conversation w st owner name request = (st1, conv_id, before) ->
  let history := (before ++ [turn "user" (PyStr (prompt request))])%list in
  let out := api_query_space w st owner name request in
  _conv_counter (store_after out) = _conv_counter st1
  /\ (forall other, other <> conv_id ->
                    find_conversation (_conversations (store_after out)) other
                    = find_conversation (_conversations st1) other)
  /\ (forall cid h, In (cid, h) (_conversations (store_after out)) ->
                    (cid = conv_id
                     /\ (h = history \/ exists a, h = (history ++ [turn "assistant" a])%list))
                    \/ In (cid, h) (_conversations st1))
  /\ (forall cls msg,
         query_copilot_space w (owner ++ "/" ++ name) (last_n 20 history) = Raise (Exn cls msg)
         \/ (exists response,
                query_copilot_space w (owner ++ "/" ++ name) (last_n 20 history) = Ok response
                /\ _extract_response response = Raise (Exn cls msg)) ->
         reply out = Http500 msg
         /\ find_conversation (_conversations (store_after out)) conv_id = Some history)
  /\ (forall body, reply out = Http200 body ->
                   exists a,
                     body = PyDict [("conversationId", PyStr conv_id); ("response", a);
                                    ("spaceId", PyStr (owner ++ "/" ++ name))]
                     /\ find_conversation (_conversations (store_after out)) conv_id
                        = Some (history ++ [turn "assistant" a])%list).
Proof.
  intros Hopen history out. unfold out, api_query_space.
  rewrite Hopen. unfold append_turn. fold history. cbn [_conversations _conv_counter].
  destruct (query_copilot_space w (owner ++ "/" ++ name) (last_n 20 history))
    as [response|[cls0 msg0]].
  - destruct (_extract_response response) as [a|[cls0 msg0]] eqn:X;
      cbn [store_after reply _conversations _conv_counter].
    + split; [reflexivity|]. split; [|split; [|split]].
      * intros other N. now rewrite !find_set_other.
      * intros cid h Hin. apply in_set_conversation in Hin.
        destruct Hin as [(-> & ->)|Hin]; [left; split; eauto|].
        apply in_set_conversation in Hin.
        destruct Hin as [(-> & ->)|Hin]; [left; split; eauto | now right].
      * intros cls msg [E|(response' & E & E')]; [discriminate|].
        inversion E; subst response'. rewrite X in E'. discriminate.
      * intros body [= <-]. exists a. split; [reflexivity | apply find_set_conversation].
    + split; [reflexivity|]. split; [|split; [|split]].
      * intros other N. now rewrite find_set_other.
      * intros cid h Hin. apply in_set_conversation in Hin.
        destruct Hin as [(-> & ->)|Hin]; [left; split; eauto | now right].
      * intros cls msg [E|(response' & E & E')]; [discriminate|].
        inversion E; subst response'. rewrite X in E'. inversion E'; subst.
        split; [reflexivity | apply find_set_conversation].
      * intros body [=].
  - cbn [store_after reply _conversations _conv_counter].
    split; [reflexivity|]. split; [|split; [|split]].
    + intros other N. now rewrite find_set_other.
    + intros cid h Hin. apply in_set_conversation in Hin.
      destruct Hin as [(-> & ->)|Hin]; [left; split; eauto | now right].
    + intros cls msg [E|(response' & E & _)]; [|discriminate].
      inversion E; subst. split; [reflexivity | apply find_set_conversation].
    + intros body [=].
Qed.

(** X12. A failed chat call is answered with status 500 and the message, but
    the user turn it appended stays in the stored conversation: sending the
    same request again puts the prompt twice into the message list. *)
Theorem failed_query_keeps_user_turn (w : world) (st : store) (owner name conv_id : string)
    (request : QueryRequest) (before : list pyval) (cls msg : string) :
  conversationId request = Some conv_id ->
  nonempty conv_id = true ->
  find_conversation (_conversations st) conv_id = Some before ->
  let user := turn "user" (PyStr (prompt request)) in
  query_copilot_space w (owner ++ "/" ++ name) (last_n 20 (before ++ [user])) = Raise (Exn cls msg) ->
  let out := api_query_space w st owner name request in
  reply out = Http500 msg
  /\ find_conversation (_conversations (store_after out)) conv_id = Some (before ++ [user])%list
  /\ forall w',
       chat_calls (api_query_space w' (store_after out) owner name request)
       = [(owner ++ "/" ++ name, last_n 20 (before ++ [user; user]))].
Proof.
  intros Hid Hne Hfind user Hfail out.
  pose proof (@open_conversation_known w st owner name request _ _ Hid Hne Hfind) as Hopen.
  destruct (@api_query_space_effect w st _ owner name request _ _ Hopen)
    as (_ & _ & _ & Hfailed & _).
  destruct (Hfailed cls msg (or_introl Hfail)) as (Hreply & Hstored).
  split; [exact Hreply|]. split; [exact Hstored|].
  intros w'.
  pose proof (@open_conversation_known w' (store_after out) owner name request _ _
                Hid Hne Hstored) as Hopen'.
  destruct (@api_query_space_run w' _ _ owner name request _ _ Hopen') as (Hcalls & _).
  fold user in Hcalls. rewrite <- app_assoc in Hcalls. exact Hcalls.
Qed.

(** X13. After a first query has created a conversation and succeeded, a
    second query that names the returned id is sent the system turn, the
    first prompt, the assistant's reply and the new prompt, in this order,
    and no further conversation is created. *)
Theorem follow_up_sees_the_exchange (w : world) (st : store) (owner name : string)
    (request : QueryRequest) (body : pyval) :
  starts_conversation st request ->
  let out := api_query_space w st owner name request in
  reply out = Http200 body ->
  exists text a,
    body = PyDict [("conversationId", PyStr (next_id st)); ("response", a);
                   ("spaceId", PyStr (owner ++ "/" ++ name))]
    /\ forall w' next,
         conversationId next = Some (next_id st) ->
         let out' := api_query_space w' (store_after out) owner name next in
         chat_calls out'
         = [(owner ++ "/" ++ name,
             [turn "system" (PyStr text); turn "user" (PyStr (prompt request));
              turn "assistant" a; turn "user" (PyStr (prompt next))])]
         /\ _conv_counter (store_after out') = (_conv_counter st + 1)%Z.
Proof.
  intros Hnew out Hreply.
  pose proof (@open_conversation_new w st owner name request Hnew) as Hopen.
  cbv zeta in Hopen.
  destruct (@api_query_space_effect w st _ owner name request _ _ Hopen)
    as (Hcount & _ & _ & _ & Hok).
  destruct (Hok body Hreply) as (a & Hbody & Hstored).
  eexists. exists a. split; [exact Hbody|].
  intros w' next Hid out'.
  assert (Hne : nonempty (next_id st) = true) by reflexivity.
  pose proof (@open_conversation_known w' (store_after out) owner name next _ _
                Hid Hne Hstored) as Hopen'.
  destruct (@api_query_space_run w' _ _ owner name next _ _ Hopen') as (Hcalls & _).
  destruct (@api_query_space_effect w' _ _ owner name next _ _ Hopen') as (Hcount' & _).
  split.
  - exact Hcalls.
  - unfold out'. rewrite Hcount'. exact Hcount.
Qed.

Lemma of_Z_inj (a b : Z) : of_Z a = of_Z b -> a = b.
Proof.
  unfold of_Z. intros H. apply DecimalZ.to_int_inj.
  assert (N : forall z, Z.to_int z <> Decimal.Pos Decimal.Nil
                        /\ Z.to_int z <> Decimal.Neg Decimal.Nil).
  { intros z. destruct z as [|p|p]; cbn; split; try discriminate;
      intros [= E]; now apply (DecimalPos.Unsigned.to_uint_nonnil p). }
  apply (f_equal NilZero.int_of_string) in H.
  rewrite !NilZero.isi in H by apply N. now inversion H.
Qed.

Lemma conv_id_inj (a b : Z) : "conv-" ++ of_Z a = "conv-" ++ of_Z b -> a = b.
Proof. cbn. intros [= H]. now apply of_Z_inj. Qed.

Lemma system_turns_app (l1 l2 : list pyval) :
  system_turns (l1 ++ l2) = system_turns l1 + system_turns l2.
Proof. unfold system_turns. now rewrite filter_app, length_app. Qed.

Lemma system_turns_skipn (n : nat) (l : list pyval) :
  system_turns l = 0 -> system_turns (skipn n l) = 0.
Proof.
  intros H. rewrite <- (firstn_skipn n l), system_turns_app in H. lia.
Qed.

Lemma grounded_append (history : list pyval) (role : string) (content : pyval) :
  grounded history ->
  String.eqb role "system" = false ->
  grounded (history ++ [turn role content]).
Proof.
  intros (text & rest & -> & Hrest) Hrole.
  exists text, (rest ++ [turn role content])%list. split; [reflexivity|].
  rewrite system_turns_app, Hrest. unfold system_turns. cbn. now rewrite Hrole.
Qed.

(** The next id is one the store does not hold yet. *)
Lemma next_id_fresh (st : store) :
  store_ok st -> find_conversation (_conversations st) (next_id st) = None.
Proof.
  intros (_ & Hok).
  destruct (find_conversation (_conversations st) (next_id st)) as [h|] eqn:F;
    [|reflexivity].
  apply find_In in F. destruct (Hok _ _ F) as ((k & Hk & E) & _).
  unfold next_id in E. apply conv_id_inj in E. lia.
Qed.

Lemma issued_later (c c' : Z) (conv_id : string) :
  (c <= c')%Z -> issued c conv_id -> issued c' conv_id.
Proof. intros L (k & Hk & E). exists k. split; [lia | exact E]. Qed.

(** What [open_conversation] returns: a stored conversation as it was, or a
    new one under the next id. *)
Lemma open_conversation_cases (w : world) (st : store) (owner name : string)
    (request : QueryRequest) :
  (exists conv_id before,
      find_conversation (_conversations st) conv_id = Some before
      /\ open_conversation w st owner name request = (st, conv_id, before))
  \/ (exists text,
         open_conversation w st owner name request
         = (Store (set_conversation (_conversations st) (next_id st)
                     [turn "system" (PyStr text)]) (_conv_counter st + 1),
            next_id st, [turn "system" (PyStr text)])).
Proof.
  unfold open_conversation.
  destruct (conversationId request) as [c|]; [|right; eexists; reflexivity].
  destruct (nonempty c); [|right; eexists; reflexivity].
  destruct (find_conversation (_conversations st) c) as [h|] eqn:F.
  - left. exists c, h. now split.
  - right. eexists. reflexivity.
Qed.

Lemma open_conversation_ok (w : world) (st st1 : store) (owner name : string)
    (request : QueryRequest) (conv_id : string) (before : list pyval) :
  store_ok st ->
  open_conversation w st owner name request = (st1, conv_id, before) ->
  store_ok st1
  /\ (_conv_counter st <= _conv_counter st1)%Z
  /\ issued (_conv_counter st1) conv_id
  /\ grounded before.
Proof.
  intros (Hpos & Hok) Hopen.
  destruct (open_conversation_cases w st owner name request)
    as [(c & h & F & E)|(text & E)]; rewrite E in Hopen; inversion Hopen; subst.
  - apply find_In in F. destruct (Hok _ _ F) as (Hi & Hg).
    split; [split; assumption|]. split; [lia|]. split; assumption.
  - cbn [_conv_counter _conversations].
    assert (Hi : issued (_conv_counter st + 1) (next_id st)).
    { exists (_conv_counter st + 1)%Z. split; [lia | reflexivity]. }
    assert (Hg : grounded [turn "system" (PyStr text)]).
    { exists text, []. now split. }
    split; [|split; [lia|split; assumption]].
    split; [cbn; lia|]. cbn [_conv_counter _conversations].
    intros cid h Hin. apply in_set_conversation in Hin.
    destruct Hin as [(-> & ->)|Hin]; [now split|].
    destruct (Hok _ _ Hin) as (Hi' & Hg'). split; [|exact Hg'].
    apply issued_later with (c := _conv_counter st); [lia | exact Hi'].
Qed.

(** X14. The store invariant: the counter is not negative, and every stored
    conversation has an id the counter has given out and a history that
    starts with its system turn and holds no other system turn.  Every
    request keeps it, whether it succeeds or fails, and never lowers the
    counter. *)
Theorem store_ok_preserved (w : world) (st : store) (owner name : string)
    (request : QueryRequest) :
  store_ok st ->
  store_ok (store_after (api_query_space w st owner name request))
  /\ (_conv_counter st
      <= _conv_counter (store_after (api_query_space w st owner name request)))%Z.
Proof.
  intros Hok.
  destruct (open_conversation w st owner name request) as [[st1 conv_id] before] eqn:Hopen.
  destruct (@open_conversation_ok w st st1 owner name request conv_id before Hok Hopen) as ((Hpos1 & Hok1) & Hle & Hissued & Hgrounded).
  destruct (@api_query_space_effect w st _ owner name request _ _ Hopen)
    as (Hcount & _ & Hentries & _).
  rewrite Hcount. split; [|exact Hle].
  split; [rewrite Hcount; exact Hpos1|].
  intros cid h Hin. rewrite Hcount.
  destruct (Hentries _ _ Hin) as [(-> & [->|(a & ->)])|Hold].
  - split; [exact Hissued|]. now apply grounded_append.
  - split; [exact Hissued|]. apply grounded_append; [|reflexivity].
    now apply grounded_append.
  - now apply Hok1.
Qed.

(** X15. A request changes one conversation only.  A new conversation gets an
    id the store did not hold, so every conversation stored before is found
    afterwards with the history it had; a request on a stored conversation
    leaves all the others as they were. *)
Theorem other_conversations_untouched (w : world) (st : store) (owner name : string)
    (request : QueryRequest) :
  store_ok st ->
  let out := api_query_space w st owner name request in
  (starts_conversation st request ->
   find_conversation (_conversations st) (next_id st) = None
   /\ (forall other history,
          find_conversation (_conversations st) other = Some history ->
          find_conversation (_conversations (store_after out)) other = Some history)
   /\ _conv_counter (store_after out) = (_conv_counter st + 1)%Z)
  /\ (forall conv_id before,
         conversationId request = Some conv_id -> nonempty conv_id = true ->
         find_conversation (_conversations st) conv_id = Some before ->
         (forall other, other <> conv_id ->
                        find_conversation (_conversations (store_after out)) other
                        = find_conversation (_conversations st) other)
         /\ _conv_counter (store_after out) = _conv_counter st).
Proof.
  intros Hok out. split.
  - intros Hnew.
    pose proof (@next_id_fresh st Hok) as Hfresh.
    pose proof (@open_conversation_new w st owner name request Hnew) as Hopen.
    cbv zeta in Hopen.
    destruct (@api_query_space_effect w st _ owner name request _ _ Hopen)
      as (Hcount & Hothers & _).
    split; [exact Hfresh|]. split; [|exact Hcount].
    intros other history Hfind.
    assert (N : other <> next_id st).
    { intros ->. rewrite Hfresh in Hfind. discriminate. }
    fold out in Hothers. rewrite (Hothers other N). cbn [_conversations].
    now rewrite find_set_other.
  - intros conv_id before Hid Hne Hfind.
    pose proof (@open_conversation_known w st owner name request _ _ Hid Hne Hfind) as Hopen.
    destruct (@api_query_space_effect w st _ owner name request _ _ Hopen)
      as (Hcount & Hothers & _).
    split; [exact Hothers | exact Hcount].
Qed.

(** X16. The window of twenty: for a stored, grounded conversation of fewer
    than twenty turns the chat call gets the whole history and the new
    prompt; from twenty turns on it gets exactly twenty messages and the
    system turn, with the grounding context, is no longer among them. *)
Theorem window_drops_system_turn (w : world) (st : store) (owner name conv_id : string)
    (request : QueryRequest) (before : list pyval) :
  conversationId request = Some conv_id ->
  nonempty conv_id = true ->
  find_conversation (_conversations st) conv_id = Some before ->
  grounded before ->
  let user := turn "user" (PyStr (prompt request)) in
  let out := api_query_space w st owner name request in
  (List.length before < 20 -> chat_calls out = [(owner ++ "/" ++ name, (before ++ [user])%list)])
  /\ (20 <= List.length before ->
      exists messages,
        chat_calls out = [(owner ++ "/" ++ name, messages)]
        /\ List.length messages = 20
        /\ system_turns messages = 0).
Proof.
  intros Hid Hne Hfind (text & rest & -> & Hrest) user out.
  pose proof (@open_conversation_known w st owner name request _ _ Hid Hne Hfind) as Hopen.
  destruct (@api_query_space_run w st _ owner name request _ _ Hopen) as (Hcalls & _).
  fold user out in Hcalls. split.
  - intros Hshort. rewrite Hcalls. unfold last_n.
    replace (List.length ((turn "system" (PyStr text) :: rest) ++ [user]) - 20) with 0.
    + reflexivity.
    + rewrite length_app. cbn [List.length] in *. lia.
  - intros Hlong. eexists. split; [exact Hcalls|]. split.
    + rewrite last_n_length, length_app. cbn [List.length] in *. lia.
    + unfold last_n. rewrite length_app. cbn [List.length app] in *.
      replace (S (List.length rest) + 1 - 20) with (S (List.length rest - 19)) by lia.
      cbn [skipn]. apply system_turns_skipn.
      rewrite system_turns_app, Hrest. reflexivity.
Qed.

End Store.

(* ================================================================== *)
(** ** More on the [query_space] tool *)

Section ToolHistory.
Import PyString Py CopilotClient McpServer Spec Invariants.
Context {loads : JsonLoads}.

(** X17. For a history that decodes to a list, the tool calls the chat
    endpoint once with the last twenty items of the list, unchanged and in
    order, followed by the user turn: at most twenty-one messages, one more
    than the HTTP bridge sends. *)
Theorem tool_history_window (w : world) (space_id prompt conversation_history : string)
    (l : list pyval) :
  json_loads conversation_history = Decoded (PyList l) ->
  let user := turn "user" (PyStr prompt) in
  let run := query_space w space_id prompt conversation_history in
  tool_chat_calls run = [(space_id, (last_n 20 l ++ [user])%list)]
  /\ List.length (last_n 20 l ++ [user]) = Nat.min (List.length l) 20 + 1
  /\ l = (firstn (List.length l - 20) l ++ last_n 20 l)%list.
Proof.
  intros Hloads user run. split; [|split].
  - unfold run, query_space. rewrite Hloads. cbn [bind history_tail]. fold user.
    now destruct (bind _ _).
  - rewrite length_app, last_n_length. reflexivity.
  - apply last_n_suffix.
Qed.

(** X18. A history that is valid JSON but can not be sliced (a number, a
    boolean, [null] or an object) makes the tool answer with the JSON text
    of an [error] object, and the chat endpoint is never called. *)
Theorem tool_rejects_unsliceable_history (w : world)
    (space_id prompt conversation_history : string) (v : pyval) :
  json_loads conversation_history = Decoded v ->
  sliceable v = false ->
  let run := query_space w space_id prompt conversation_history in
  tool_chat_calls run = []
  /\ (exists msg, tool_output run = json_dumps (PyDict [("error", PyStr msg)]))
  /\ (is_dict v = false ->
      tool_output run
      = json_dumps (PyDict [("error",
                             PyStr ("'" ++ type_name v ++ "' object is not subscriptable"))])).
Proof.
  intros Hloads Hslice run. unfold run, query_space. rewrite Hloads.
  destruct v; try discriminate;
    cbn [bind history_tail tool_chat_calls tool_output error_output];
    (split; [reflexivity|]); (split; [eexists; reflexivity|]);
    intros Hd; try discriminate; reflexivity.
Qed.

End ToolHistory.

(* ================================================================== *)
(** ** The further properties on the sample upstreams *)

Section MoreInstances.
Import PyString Py CopilotClient Spec Samples Invariants MoreSamples.

Lemma missing_token_fails_everywhere_witness :
  @list_copilot_spaces sample_loads tokenless_world = Raise token_error
  /\ get_copilot_space tokenless_world "acme/docs" = Raise token_error
  /\ query_copilot_space tokenless_world "acme/docs" [] = Raise token_error
  /\ @McpServer.list_spaces sample_loads tokenless_world = McpServer.error_output token_error.
Proof.
  destruct (@missing_token_fails_everywhere sample_loads tokenless_world (or_introl eq_refl))
    as (Hlist & Hget & Hchat & _ & _ & _ & Htool).
  split; [exact Hlist|]. split; [exact (Hget "acme/docs")|].
  split; [exact (Hchat "acme/docs" [])|]. exact Htool.
Defined.

Lemma chat_result_passthrough_witness :
  query_copilot_space chat_down_world "acme/docs" []
  = Raise (Exn "HTTPStatusError" "Server error '502 Bad Gateway'")
  /\ query_copilot_space late_cleanup_world "acme/docs" [] = Ok reply_hi
  /\ query_copilot_space array_reply_world "acme/docs" []
     = Raise (Exn "AttributeError" "'list' object has no attribute 'get'").
Proof.
  split; [|split].
  - exact (proj1 (@chat_result_passthrough chat_down_world "ghp_token" "acme/docs" []
                    eq_refl eq_refl) _ eq_refl).
  - exact (proj1 (proj2 (@chat_result_passthrough late_cleanup_world "ghp_token" "acme/docs" []
                           eq_refl eq_refl)) _ eq_refl).
  - exact (proj2 (proj2 (@chat_result_passthrough array_reply_world "ghp_token" "acme/docs" []
                           eq_refl eq_refl)) _ eq_refl eq_refl).
Defined.

Lemma lister_envelopes_witness :
  @list_copilot_spaces more_loads (listing_world wrapped_spaces None)
  = @list_copilot_spaces more_loads (listing_world sample_spaces None)
  /\ @list_copilot_spaces more_loads (listing_world items_spaces None)
     = @list_copilot_spaces more_loads (listing_world sample_spaces None)
  /\ @list_copilot_spaces more_loads (listing_world (PyInt 7) None) = Ok (PyList []).
Proof.
  destruct (@lister_envelopes more_loads (listing_world sample_spaces None) _
              (answer_of sample_spaces) sample_spaces
              (sample_ready _ _ _ _) eq_refl eq_refl eq_refl)
    as (Hbare & _).
  destruct (@lister_envelopes more_loads (listing_world wrapped_spaces None) _
              (answer_of wrapped_spaces) wrapped_spaces
              (sample_ready _ _ _ _) eq_refl eq_refl eq_refl)
    as (_ & Hspaces & _).
  destruct (@lister_envelopes more_loads (listing_world items_spaces None) _
              (answer_of items_spaces) items_spaces
              (sample_ready _ _ _ _) eq_refl eq_refl eq_refl)
    as (_ & _ & Hitems & _).
  destruct (@lister_envelopes more_loads (listing_world (PyInt 7) None) _
              (answer_of (PyInt 7)) (PyInt 7)
              (sample_ready _ _ _ _) eq_refl eq_refl eq_refl)
    as (_ & _ & _ & _ & Hother).
  split; [|split].
  - rewrite (Hbare _ eq_refl). exact (Hspaces _ _ eq_refl eq_refl).
  - rewrite (Hbare _ eq_refl). exact (Hitems _ _ eq_refl eq_refl eq_refl).
  - apply Hother; [reflexivity | discriminate].
Defined.


Lemma add_space_ref_idempotent_witness :
  nth_error (map add_space_ref [PyInt 3; PyDict [("name", PyStr "e")]]) 0 = Some (PyInt 3).
Proof.
  exact (proj2 (proj2 (add_space_ref_idempotent [PyInt 3; PyDict [("name", PyStr "e")]]))
           0 (PyInt 3) eq_refl eq_refl).
Defined.

Lemma list_tool_and_resource_witness :
  @McpServer.list_spaces sample_loads failing_world
  = json_dumps (PyDict [("error", PyStr "unhandled errors in a TaskGroup")])
  /\ @McpServer.spaces_resource sample_loads failing_world = Raise cleanup_error
  /\ @McpServer.list_spaces sample_loads (listing_world (PyList []) None) = "[]".
Proof.
  destruct (@list_tool_and_resource sample_loads failing_world) as (Hfail & _).
  destruct (Hfail "ExceptionGroup" "unhandled errors in a TaskGroup" eq_refl)
    as (Htool & Hresource).
  split; [exact Htool|]. split; [exact Hresource|].
  exact (proj2 (proj2 (@list_tool_and_resource sample_loads (listing_world (PyList []) None)))
           eq_refl).
Defined.

Lemma fetched_files_come_from_items_witness :
  exists space entries,
    get_copilot_space late_cleanup_world "acme/docs" = Ok (PyDict space)
    /\ dict_lookup space "files" = Some (PyList entries)
    /\ Forall (file_entry_ok space_items) entries
    /\ List.length entries <= 3.
Proof.
  exact (@fetched_files_come_from_items late_cleanup_world _ "acme/docs"
           (CallToolResult (Some space_items)) (sample_ready _ _ _ _) eq_refl).
Defined.

Lemma empty_context_means_no_files_witness :
  ApiBridge.fetch_file_context blank_world "acme/docs" = PyStr ""
  /\ ApiBridge.system_content "acme" "docs" (ApiBridge.fetch_file_context blank_world "acme/docs")
     = placeholder_content "acme" "docs".
Proof.
  destruct (@empty_context_means_no_files blank_world _ "acme" "docs"
              (CallToolResult (Some [resource_item "space://acme/7/files/todo.md" "  "]))
              (sample_ready _ _ _ _) eq_refl) as (Hctx & _ & Hempty & _).
  split; [exact Hctx | exact (Hempty eq_refl)].
Defined.

Lemma context_contains_each_file_witness :
  contains "X is Y."
    (ApiBridge.system_content "acme" "docs"
       (PyStr (build_context [File "overview.md" "X is Y."]))) = true.
Proof.
  exact (proj2 (proj2 (@context_contains_each_file [File "overview.md" "X is Y."]
                         (File "overview.md" "X is Y.") "acme" "docs"
                         (or_introl eq_refl)))).
Defined.

Lemma get_route_round_trip_witness :
  split_ref "acme/docs" = ("acme", "docs")
  /\ ApiBridge.api_get_space unnamed_world "acme" "docs"
     = ApiBridge.Http200 (space_record "acme" "docs" "acme/docs" unnamed_items)
  /\ ApiBridge.api_get_space failing_world "acme" "docs"
     = ApiBridge.Http500 "unhandled errors in a TaskGroup".
Proof.
  destruct (@get_route_round_trip unnamed_world _ "acme" "docs" eq_refl (sample_ready _ _ _ _))
    as (Hsplit & Hok & _).
  destruct (@get_route_round_trip failing_world _ "acme" "docs" eq_refl (sample_ready _ _ _ _))
    as (_ & _ & Hfail).
  split; [exact Hsplit|]. split; [exact (Hok _ eq_refl)|].
  exact (Hfail tool_error _ _ eq_refl eq_refl).
Defined.

Lemma failed_query_keeps_user_turn_witness :
  ApiBridge.reply
    (ApiBridge.api_query_space chat_down_world long_store "acme" "docs"
       (follow_up "conv-1" "again"))
  = ApiBridge.Http500 "Server error '502 Bad Gateway'"
  /\ ApiBridge.find_conversation
       (ApiBridge._conversations
          (ApiBridge.store_after
             (ApiBridge.api_query_space chat_down_world long_store "acme" "docs"
                (follow_up "conv-1" "again")))) "conv-1"
     = Some (long_history ++ [turn "user" (PyStr "again")])%list.
Proof.
  destruct (@failed_query_keeps_user_turn chat_down_world long_store "acme" "docs" "conv-1"
              (follow_up "conv-1" "again") long_history
              "HTTPStatusError" "Server error '502 Bad Gateway'"
              eq_refl eq_refl eq_refl eq_refl) as (Hreply & Hstored & _).
  split; [exact Hreply | exact Hstored].
Defined.

Lemma follow_up_sees_the_exchange_witness :
  exists text,
    ApiBridge.chat_calls
      (ApiBridge.api_query_space late_cleanup_world
         (ApiBridge.store_after
            (ApiBridge.api_query_space late_cleanup_world empty_store "acme" "docs"
               first_request))
         "acme" "docs" (follow_up "conv-1" "And Z?"))
    = [("acme/docs",
        [turn "system" (PyStr text); turn "user" (PyStr "What is X?");
         turn "assistant" (PyStr "hi"); turn "user" (PyStr "And Z?")])].
Proof.
  destruct (@follow_up_sees_the_exchange late_cleanup_world empty_store "acme" "docs"
              first_request _ I eq_refl) as (text & a & Hbody & Hnext).
  inversion Hbody; subst a.
  exists text.
  exact (proj1 (Hnext late_cleanup_world (follow_up "conv-1" "And Z?") eq_refl)).
Defined.

Lemma empty_store_ok : store_ok empty_store.
Proof. split; [cbn; lia | intros conv_id history []]. Qed.

Lemma long_store_ok : store_ok long_store.
Proof.
  split; [cbn; lia|].
  intros conv_id history [[= <- <-]|[]]. split.
  - exists 1%Z. split; [cbn; lia | reflexivity].
  - eexists. eexists. split; reflexivity.
Qed.

Lemma store_ok_preserved_witness :
  store_ok (ApiBridge.store_after
              (ApiBridge.api_query_space chat_down_world empty_store "acme" "docs"
                 first_request))
  /\ store_ok (ApiBridge.store_after
                 (ApiBridge.api_query_space late_cleanup_world long_store "acme" "docs"
                    (follow_up "conv-1" "again"))).
Proof.
  split.
  - exact (proj1 (@store_ok_preserved chat_down_world empty_store "acme" "docs" first_request
                    empty_store_ok)).
  - exact (proj1 (@store_ok_preserved late_cleanup_world long_store "acme" "docs"
                    (follow_up "conv-1" "again") long_store_ok)).
Defined.

Lemma other_conversations_untouched_witness :
  ApiBridge.find_conversation (ApiBridge._conversations long_store) "conv-2" = None
  /\ ApiBridge.find_conversation
       (ApiBridge._conversations
          (ApiBridge.store_after
             (ApiBridge.api_query_space late_cleanup_world long_store "acme" "docs"
                first_request))) "conv-1"
     = Some long_history.
Proof.
  destruct (proj1 (@other_conversations_untouched late_cleanup_world long_store "acme" "docs"
                     first_request long_store_ok) I) as (Hfresh & Hkept & _).
  split; [exact Hfresh | exact (Hkept "conv-1" long_history eq_refl)].
Defined.

Lemma window_drops_system_turn_witness :
  exists messages,
    ApiBridge.chat_calls
      (ApiBridge.api_query_space late_cleanup_world long_store "acme" "docs"
         (follow_up "conv-1" "again"))
    = [("acme/docs", messages)]
    /\ List.length messages = 20
    /\ system_turns messages = 0.
Proof.
  assert (Hgrounded : grounded long_history).
  { eexists. eexists. split; reflexivity. }
  exact (proj2 (@window_drops_system_turn late_cleanup_world long_store "acme" "docs" "conv-1"
                  (follow_up "conv-1" "again") long_history eq_refl eq_refl eq_refl Hgrounded)
           (le_n 20)).
Defined.

Lemma tool_history_window_witness :
  McpServer.tool_chat_calls
    (@McpServer.query_space more_loads late_cleanup_world "acme/docs" "three"
       (json_dumps sample_history))
  = [("acme/docs",
      [turn "user" (PyStr "one"); turn "assistant" (PyStr "two"); turn "user" (PyStr "three")])].
Proof.
  exact (proj1 (@tool_history_window more_loads late_cleanup_world "acme/docs" "three"
                  (json_dumps sample_history)
                  [turn "user" (PyStr "one"); turn "assistant" (PyStr "two")] eq_refl)).
Defined.

Lemma tool_rejects_unsliceable_history_witness :
  McpServer.tool_chat_calls
    (@McpServer.query_space more_loads late_cleanup_world "acme/docs" "hello" "7") = []
  /\ McpServer.tool_output
       (@McpServer.query_space more_loads late_cleanup_world "acme/docs" "hello" "7")
     = json_dumps (PyDict [("error", PyStr "'int' object is not subscriptable")]).
Proof.
  destruct (@tool_rejects_unsliceable_history more_loads late_cleanup_world "acme/docs" "hello"
              "7" (PyInt 7) eq_refl eq_refl) as (Hcalls & _ & Houtput).
  split; [exact Hcalls | exact (Houtput eq_refl)].
Defined.

End MoreInstances.

(* ================================================================== *)
(** ** Conversation ids are the bridge's own *)

Section OwnIds.
Import PyString Py CopilotClient ApiBridge Spec Samples Invariants MoreSamples.

(** X11. An unknown conversation id sent by a client is never used as the
    key: the new conversation is stored under the next id of the counter,
    that id is the one a successful reply carries, and the id the client sent
    stays unknown afterwards unless it is that next id itself. *)
Theorem unknown_id_is_not_adopted (w : world) (st : store) (owner name requested : string)
    (request : QueryRequest) :
  conversationId request = Some requested ->
  find_conversation (_conversations st) requested = None ->
  let out := api_query_space w st owner name request in
  (exists history,
      find_conversation (_conversations (store_after out)) (next_id st) = Some history)
  /\ (forall body, reply out = Http200 body ->
                   field body "conversationId" = Some (PyStr (next_id st)))
  /\ _conv_counter (store_after out) = (_conv_counter st + 1)%Z
  /\ (requested <> next_id st ->
      find_conversation (_conversations (store_after out)) requested = None)
  /\ (requested = next_id st ->
      find_conversation (_conversations (store_after out)) requested <> None).
Proof.
  intros Hid Hunknown out.
  assert (Hnew : starts_conversation st request).
  { unfold starts_conversation. now rewrite Hid. }
  pose proof (@open_conversation_new w st owner name request Hnew) as Hopen.
  cbv zeta in Hopen.
  destruct (@api_query_space_effect w st _ owner name request _ _ Hopen)
    as (Hcount & Hothers & _ & _ & Hok).
  destruct (@api_query_space_run w st _ owner name request _ _ Hopen)
    as (_ & (rest & Hstored & _) & _).
  fold out in Hcount, Hothers, Hok, Hstored.
  split; [eexists; exact Hstored|]. split; [|split; [exact Hcount|split]].
  - intros body Hbody. destruct (Hok body Hbody) as (a & -> & _). reflexivity.
  - intros Hother. rewrite (Hothers requested Hother). cbn [_conversations].
    now rewrite find_set_other.
  - intros ->. rewrite Hstored. discriminate.
Qed.

Lemma unknown_id_is_not_adopted_witness :
  find_conversation
    (_conversations
       (store_after
          (api_query_space late_cleanup_world long_store "acme" "docs"
             (follow_up "my-own-id" "hello")))) "my-own-id" = None
  /\ find_conversation
       (_conversations
          (store_after
             (api_query_space late_cleanup_world long_store "acme" "docs"
                (follow_up "conv-2" "hello")))) "conv-2" <> None.
Proof.
  destruct (@unknown_id_is_not_adopted late_cleanup_world long_store "acme" "docs" "my-own-id"
              (follow_up "my-own-id" "hello") eq_refl eq_refl)
    as (_ & _ & _ & Hunknown & _).
  destruct (@unknown_id_is_not_adopted late_cleanup_world long_store "acme" "docs" "conv-2"
              (follow_up "conv-2" "hello") eq_refl eq_refl)
    as (_ & _ & _ & _ & Hguessed).
  split.
  - apply Hunknown. intros H.
    exact (eq_ind "my-own-id"
             (fun s => match s with String "m" _ => True | _ => False end) I _ H).
  - exact (Hguessed eq_refl).
Defined.

End OwnIds.
